(** * GitHub service client: a shallow embedding and its contract

    The development follows [services/github.ts] (the class
    [GitHubService]) and the repository panel that calls it
    ([GitHubOperations]).  The client is a thin wrapper around [fetch]:
    every method builds one request, awaits the response, reads its JSON
    body and either returns it or raises.  The embedding keeps that
    shape: JavaScript values are an inductive type, [async] methods are
    computations in a state-and-exception monad over the browser's
    world (requests sent, console, dialogs, clock, backend). *)

From Stdlib Require Import ZArith List String Ascii Bool Lia DecimalString.
Import ListNotations.

Set Warnings "-register-all".

Local Open Scope string_scope.
Local Open Scope Z_scope.

(* ===================================================================== *)
(** ** JavaScript values *)
(* ===================================================================== *)

Module JS.

(** The values the client handles: what [JSON.parse] produces, plus
    [undefined] (the result of reading a property that is not there).
    Numbers are integers here: the client never computes with them, it
    only tests them for truthiness and prints them.  [VNum n] stands
    for the number [n] when its magnitude is below 2^53, the integers
    that [JSON.parse] reads exactly and that print digit by digit;
    fractions and larger numbers are not represented, and nothing
    proved below rests on how a number prints.  Objects keep their
    properties in insertion order, as [JSON.stringify] walks them. *)
Inductive value : Type :=
| VUndefined
| VNull
| VBool (b : bool)
| VNum (n : Z)
| VStr (s : string)
| VArr (items : list value)
| VObj (fields : list (string * value)).

(** What a [throw] carries.  [fetch], [Response.json] and a failed
    property read raise instances of [Error] (a name and a message);
    JavaScript allows any other value to be thrown as well. *)
Inductive thrown : Type :=
| JsError (name message : string)
| JsThrown (v : value).

(** ToBoolean *)
Definition truthy (v : value) : bool :=
  match v with
  | VUndefined | VNull => false
  | VBool b => b
  | VNum n => negb (n =? 0)%Z
  | VStr s => negb (String.eqb s EmptyString)
  | VArr _ | VObj _ => true
  end.

(** [a || b] *)
Definition js_or (a b : value) : value :=
  if truthy a then a else b.

Fixpoint join (sep : string) (l : list string) : string :=
  match l with
  | [] => EmptyString
  | [x] => x
  | x :: rest => x ++ sep ++ join sep rest
  end.

Definition Z_to_string (n : Z) : string :=
  NilZero.string_of_int (Z.to_int n).

Fixpoint lookup (key : string) (fields : list (string * value)) : option value :=
  match fields with
  | [] => None
  | (k, v) :: rest => if String.eqb k key then Some v else lookup key rest
  end.

(** The result of an evaluation step: a value, or a raised exception. *)
Inductive completion (A : Type) : Type :=
| Return (a : A)
| Throw (e : thrown).
Arguments Return {A} a.
Arguments Throw {A} e.

(** ToString.  An array prints its elements joined by commas, with
    [null] and [undefined] elements printed as nothing.  A plain
    object prints as [[object Object]], through the [toString] it
    inherits; an object with a property of its own named [toString]
    (which, coming from JSON, is not a function) cannot be converted,
    and the conversion raises a [TypeError] (V8's wording). *)
Fixpoint ToString (v : value) : completion string :=
  match v with
  | VUndefined => Return "undefined"
  | VNull => Return "null"
  | VBool true => Return "true"
  | VBool false => Return "false"
  | VNum n => Return (Z_to_string n)
  | VStr s => Return s
  | VArr items =>
      match
        (fix elements (l : list value) : completion (list string) :=
           match l with
           | [] => Return []
           | x :: rest =>
               match
                 match x with
                 | VUndefined | VNull => Return EmptyString
                 | _ => ToString x
                 end
               with
               | Throw e => Throw e
               | Return s =>
                   match elements rest with
                   | Throw e => Throw e
                   | Return ss => Return (s :: ss)
                   end
               end
           end) items
      with
      | Throw e => Throw e
      | Return strings => Return (join "," strings)
      end
  | VObj fields =>
      match lookup "toString" fields with
      | Some _ =>
          Throw (JsError "TypeError" "Cannot convert object to primitive value")
      | None => Return "[object Object]"
      end
  end.

(** What [throw new Error(message)] raises: an [Error] whose message
    is [ToString message], empty for a missing ([undefined]) argument;
    if the conversion itself raises, that exception is what leaves
    the statement. *)
Definition new_Error (message : value) : thrown :=
  match message with
  | VUndefined => JsError "Error" EmptyString
  | _ =>
      match ToString message with
      | Return text => JsError "Error" text
      | Throw e => e
      end
  end.

(** [v.key] for the property names the client reads ([detail],
    [success], [repositories], [configured]): none of them lives on a
    built-in prototype, so only a plain object can have it.  Reading
    from [null] or [undefined] raises a [TypeError] (the message is
    the engine's; this is V8's wording). *)
Definition get (v : value) (key : string) : completion value :=
  match v with
  | VUndefined =>
      Throw (JsError "TypeError"
               ("Cannot read properties of undefined (reading '" ++ key ++ "')"))
  | VNull =>
      Throw (JsError "TypeError"
               ("Cannot read properties of null (reading '" ++ key ++ "')"))
  | VObj fields =>
      Return (match lookup key fields with
              | Some x => x
              | None => VUndefined
              end)
  | _ => Return VUndefined
  end.

(** *** JSON.stringify *)

Definition hex_digit (n : N) : ascii :=
  match n with
  | 0%N => "0" | 1%N => "1" | 2%N => "2" | 3%N => "3" | 4%N => "4"
  | 5%N => "5" | 6%N => "6" | 7%N => "7" | 8%N => "8" | 9%N => "9"
  | 10%N => "a" | 11%N => "b" | 12%N => "c" | 13%N => "d" | 14%N => "e"
  | _ => "f"
  end%char.

(** One character of a quoted JSON string: the quote, the backslash and
    the control characters are escaped, everything else is kept. *)
Definition escape_char (c : ascii) : string :=
  let n := N_of_ascii c in
  if (n =? 8)%N then "\b"
  else if (n =? 9)%N then "\t"
  else if (n =? 10)%N then "\n"
  else if (n =? 12)%N then "\f"
  else if (n =? 13)%N then "\r"
  else if (n =? 34)%N then String "\" (String c EmptyString)
  else if (n =? 92)%N then "\\"
  else if (n <? 32)%N then
    "\u00" ++ String (hex_digit (n / 16)) (String (hex_digit (n mod 16)) EmptyString)
  else String c EmptyString.

Fixpoint escape (s : string) : string :=
  match s with
  | EmptyString => EmptyString
  | String c rest => escape_char c ++ escape rest
  end.

Definition dquote : string := String (ascii_of_N 34) EmptyString.

Definition quote (s : string) : string := dquote ++ escape s ++ dquote.

(** [JSON.stringify(v)]: [undefined] at the top has no serialization,
    inside an array it is written [null], and an object property
    holding it is left out. *)
Fixpoint JSON_stringify (v : value) : option string :=
  match v with
  | VUndefined => None
  | VNull => Some "null"
  | VBool b => Some (if b then "true" else "false")
  | VNum n => Some (Z_to_string n)
  | VStr s => Some (quote s)
  | VArr items =>
      Some ("[" ++ join ","
                    (map (fun x => match JSON_stringify x with
                                   | Some s => s
                                   | None => "null"
                                   end) items) ++ "]")
  | VObj fields =>
      Some ("{" ++ join ","
                    (flat_map
                       (fun kv => match kv with
                                  | (k, x) =>
                                      match JSON_stringify x with
                                      | Some s => [quote k ++ ":" ++ s]
                                      | None => []
                                      end
                                  end) fields) ++ "}")
  end.

(** *** Date.prototype.toISOString *)

Fixpoint zeros (n : nat) : string :=
  match n with
  | O => EmptyString
  | S k => "0" ++ zeros k
  end.

Definition pad_left (width : nat) (s : string) : string :=
  zeros (width - String.length s) ++ s.

Definition digits (width : nat) (n : Z) : string :=
  pad_left width (Z_to_string n).

(** Year, month and day of the proleptic Gregorian calendar from a day
    count since 1970-01-01. *)
Definition civil_from_days (days : Z) : Z * Z * Z :=
  let z := days + 719468 in
  let era := z / 146097 in
  let doe := z - era * 146097 in
  let yoe := (doe - doe / 1460 + doe / 36524 - doe / 146096) / 365 in
  let doy := doe - (365 * yoe + yoe / 4 - yoe / 100) in
  let mp := (5 * doy + 2) / 153 in
  let d := doy - (153 * mp + 2) / 5 + 1 in
  let m := if mp <? 10 then mp + 3 else mp - 9 in
  let y := yoe + era * 400 + (if m <=? 2 then 1 else 0) in
  (y, m, d).

Definition year_string (y : Z) : string :=
  if (0 <=? y) && (y <=? 9999) then digits 4 y
  else if y <? 0 then "-" ++ digits 6 (- y)
  else "+" ++ digits 6 y.

(** [new Date(t).toISOString()] for [t] milliseconds since the epoch:
    [YYYY-MM-DDTHH:mm:ss.sssZ], in UTC. *)
Definition toISOString (t : Z) : string :=
  let days := t / 86400000 in
  let ms := t mod 86400000 in
  let '(y, m, d) := civil_from_days days in
  year_string y ++ "-" ++ digits 2 m ++ "-" ++ digits 2 d ++ "T"
    ++ digits 2 (ms / 3600000) ++ ":" ++ digits 2 (ms / 60000 mod 60) ++ ":"
    ++ digits 2 (ms / 1000 mod 60) ++ "." ++ digits 3 (ms mod 1000) ++ "Z".

End JS.

Import JS.


(* ===================================================================== *)
(** ** Effects: state and exceptions *)
(* ===================================================================== *)

(** An [async] function is run to completion against a state [S]: it
    ends with a value or a raised exception, and leaves a new state.
    What it did before raising stays done. *)
Definition Eff (S A : Type) : Type := S -> completion A * S.

Definition ret {S A : Type} (a : A) : Eff S A :=
  fun s => (Return a, s).

Definition throw {S A : Type} (e : thrown) : Eff S A :=
  fun s => (Throw e, s).

Definition bind {S A B : Type} (m : Eff S A) (k : A -> Eff S B) : Eff S B :=
  fun s =>
    match m s with
    | (Return a, s') => k a s'
    | (Throw e, s') => (Throw e, s')
    end.

(** [try { body } catch (error) { handler }] *)
Definition try_catch {S A : Type} (body : Eff S A) (handler : thrown -> Eff S A)
  : Eff S A :=
  fun s =>
    match body s with
    | (Return a, s') => (Return a, s')
    | (Throw e, s') => handler e s'
    end.

(** [try { body } finally { final }]: [final] always runs; if it raises,
    its exception replaces the outcome of [body]. *)
Definition try_finally {S A : Type} (body : Eff S A) (final : Eff S unit)
  : Eff S A :=
  fun s =>
    match body s with
    | (r, s') =>
        match final s' with
        | (Return _, s'') => (r, s'')
        | (Throw e, s'') => (Throw e, s'')
        end
    end.

(** A pure step that may raise. *)
Definition step {S A : Type} (c : completion A) : Eff S A :=
  fun s => (c, s).

(** [if (c) { m }] *)
Definition when {S : Type} (c : bool) (m : Eff S unit) : Eff S unit :=
  if c then m else ret tt.

Declare Scope eff_scope.
Delimit Scope eff_scope with eff.
Notation "x <- c1 ;; c2" := (bind c1 (fun x => c2))
  (at level 61, c1 at next level, right associativity) : eff_scope.
Notation "c1 ;; c2" := (bind c1 (fun _ => c2))
  (at level 61, right associativity) : eff_scope.
Local Open Scope eff_scope.

Definition result {S A : Type} (r : completion A * S) : completion A := fst r.
Definition after {S A : Type} (r : completion A * S) : S := snd r.

(* ===================================================================== *)
(** ** The browser: fetch, console, dialogs, clock *)
(* ===================================================================== *)

Inductive Method : Type := GET | POST | DELETE.

(** The second argument of [fetch]. *)
Record RequestInit : Type := {
  method : Method;
  headers : list (string * string);
  body : option string
}.

(** A request as handed to the network. *)
Record Request : Type := {
  req_url : string;
  req_method : Method;
  req_headers : list (string * string);
  req_body : option string
}.

(** What [response.json()] settles to: the parsed body, or the
    rejection raised for a body that is not JSON. *)
Inductive BodyOutcome : Type :=
| BodyJson (data : value)
| BodyReject (e : thrown).

Record Response : Type := {
  resp_status : Z;
  resp_body : BodyOutcome
}.

(** [response.ok]: the status is in the range 200-299. *)
Definition resp_ok (r : Response) : bool :=
  (200 <=? resp_status r) && (resp_status r <=? 299).

(** What [fetch] settles to: a rejection (the request never got an
    answer) or a response, whatever its status. *)
Inductive FetchOutcome : Type :=
| Rejected (e : thrown)
| Resolved (r : Response).

(** The world a call runs in.  [sent], [console] and [dialogs] are
    logs, oldest entry first.  The backend answers a request knowing
    the requests that came before it; the user answers a confirmation
    prompt; the clock gives milliseconds since the epoch. *)
Record World : Type := {
  sent : list Request;
  console : list (string * thrown);
  dialogs : list string;
  backend : list Request -> Request -> FetchOutcome;
  confirm_answer : string -> bool;
  clock : Z
}.

Definition log_request (req : Request) (w : World) : World :=
  {| sent := (sent w ++ [req])%list;
     console := console w;
     dialogs := dialogs w;
     backend := backend w;
     confirm_answer := confirm_answer w;
     clock := clock w |}.

Definition log_console (label : string) (e : thrown) (w : World) : World :=
  {| sent := sent w;
     console := (console w ++ [(label, e)])%list;
     dialogs := dialogs w;
     backend := backend w;
     confirm_answer := confirm_answer w;
     clock := clock w |}.

Definition log_dialog (prompt : string) (w : World) : World :=
  {| sent := sent w;
     console := console w;
     dialogs := (dialogs w ++ [prompt])%list;
     backend := backend w;
     confirm_answer := confirm_answer w;
     clock := clock w |}.

(** The answer the backend gives to [req] in world [w]. *)
Definition answer (w : World) (req : Request) : FetchOutcome :=
  backend w (sent w) req.

Definition make_request (input : string) (init : option RequestInit) : Request :=
  match init with
  | None =>
      {| req_url := input; req_method := GET; req_headers := []; req_body := None |}
  | Some i =>
      {| req_url := input; req_method := method i;
         req_headers := headers i; req_body := body i |}
  end.

(** [await fetch(input, init)] *)
Definition fetch (input : string) (init : option RequestInit) : Eff World Response :=
  fun w =>
    let req := make_request input init in
    match answer w req with
    | Rejected e => (Throw e, log_request req w)
    | Resolved r => (Return r, log_request req w)
    end.

(** [await response.json()] *)
Definition json {S : Type} (response : Response) : Eff S value :=
  match resp_body response with
  | BodyJson data => ret data
  | BodyReject e => throw e
  end.

(** [console.error(label, error)] *)
Definition console_error (label : string) (e : thrown) : Eff World unit :=
  fun w => (Return tt, log_console label e w).

(** [confirm(prompt)] *)
Definition confirm (prompt : string) : Eff World bool :=
  fun w => (Return (confirm_answer w prompt), log_dialog prompt w).

(** [new Date().toISOString()] *)
Definition now_iso : Eff World string :=
  fun w => (Return (toISOString (clock w)), w).

(* ===================================================================== *)
(** ** services/github.ts *)
(* ===================================================================== *)

(** *** The request and response shapes *)

Definition opt_value {A : Type} (f : A -> value) (o : option A) : value :=
  match o with
  | Some a => f a
  | None => VUndefined
  end.

Definition strings_value (l : list string) : value := VArr (map VStr l).

Module GitHubConfig.
Record t : Type := { token : string; username : string }.

Definition to_value (c : t) : value :=
  VObj [("token", VStr (token c)); ("username", VStr (username c))].
End GitHubConfig.

Module GitHubRepository.
Record t : Type := {
  name : string;
  description : string;
  private : bool;
  auto_init : option bool;
  gitignore_template : option string
}.

Definition to_value (r : t) : value :=
  VObj [("name", VStr (name r));
        ("description", VStr (description r));
        ("private", VBool (private r));
        ("auto_init", opt_value VBool (auto_init r));
        ("gitignore_template", opt_value VStr (gitignore_template r))].
End GitHubRepository.

Module GitHubExtractRequest.
Record t : Type := {
  source_dir : string;
  repo_name : string;
  description : string;
  private : bool;
  include_patterns : option (list string);
  exclude_patterns : option (list string)
}.

Definition to_value (r : t) : value :=
  VObj [("source_dir", VStr (source_dir r));
        ("repo_name", VStr (repo_name r));
        ("description", VStr (description r));
        ("private", VBool (private r));
        ("include_patterns", opt_value strings_value (include_patterns r));
        ("exclude_patterns", opt_value strings_value (exclude_patterns r))].
End GitHubExtractRequest.

Module GitHubUpdateRequest.
Record t : Type := {
  repo_name : string;
  source_dir : string;
  include_patterns : option (list string);
  exclude_patterns : option (list string)
}.

Definition to_value (r : t) : value :=
  VObj [("repo_name", VStr (repo_name r));
        ("source_dir", VStr (source_dir r));
        ("include_patterns", opt_value strings_value (include_patterns r));
        ("exclude_patterns", opt_value strings_value (exclude_patterns r))].
End GitHubUpdateRequest.

(** *** class GitHubService *)

Record GitHubService : Type := { baseUrl : string }.

(** [constructor()] *)
Definition new_GitHubService : GitHubService :=
  {| baseUrl := "http://localhost:8000/github" |}.

Definition json_headers : list (string * string) :=
  [("Content-Type", "application/json")].

(** The body of a class is strict code, and in strict code these
    words cannot be used as the name of a parameter or a variable. *)
Definition strict_reserved_words : list string :=
  ["implements"; "interface"; "let"; "package"; "private"; "protected";
   "public"; "static"; "yield"].

Definition reserved_in_strict (name : string) : bool :=
  existsb (String.eqb name) strict_reserved_words.

(** The early error of a method declared with these parameter names
    (the message is V8's). *)
Definition early_error (parameters : list string) : option thrown :=
  if existsb reserved_in_strict parameters
  then Some (JsError "SyntaxError" "Unexpected strict mode reserved word")
  else None.

(** A method as declared.  A declaration with an early error is
    refused when the class is read, before anything can call it; here
    that shows as a call that raises the error and does nothing else.
    The other methods of the class name their parameters [config],
    [repo], [repoName], [request] and [token]; their declarations
    have no early error and are taken as they are written. *)
Definition declared {A : Type} (parameters : list string) (body : Eff World A)
  : Eff World A :=
  match early_error parameters with
  | Some e => throw e
  | None => body
  end.

Section Methods.

Variable this : GitHubService.

Definition configure (config : GitHubConfig.t) : Eff World value :=
  try_catch
    (response <- fetch (baseUrl this ++ "/configure")
                   (Some {| method := POST;
                            headers := json_headers;
                            body := JSON_stringify (GitHubConfig.to_value config) |}) ;;
     data <- json response ;;
     when (negb (resp_ok response))
       (detail <- step (get data "detail") ;;
        throw (new_Error (js_or detail (VStr "Failed to configure GitHub")))) ;;
     ret data)
    (fun error =>
       console_error "GitHub configuration error:" error ;;
       throw error).

Definition getStatus : Eff World value :=
  try_catch
    (response <- fetch (baseUrl this ++ "/status") None ;;
     data <- json response ;;
     when (negb (resp_ok response))
       (detail <- step (get data "detail") ;;
        throw (new_Error (js_or detail (VStr "Failed to get GitHub status")))) ;;
     ret data)
    (fun error =>
       console_error "GitHub status error:" error ;;
       ret (VObj [("configured", VBool false);
                  ("error",
                   (* error instanceof Error ? error.message : 'Unknown error' *)
                   match error with
                   | JsError _ message => VStr message
                   | JsThrown _ => VStr "Unknown error"
                   end)])).

Definition createRepository (repo : GitHubRepository.t) : Eff World value :=
  try_catch
    (response <- fetch (baseUrl this ++ "/repositories")
                   (Some {| method := POST;
                            headers := json_headers;
                            body := JSON_stringify (GitHubRepository.to_value repo) |}) ;;
     data <- json response ;;
     when (negb (resp_ok response))
       (detail <- step (get data "detail") ;;
        throw (new_Error (js_or detail (VStr "Failed to create repository")))) ;;
     ret data)
    (fun error =>
       console_error "Create repository error:" error ;;
       throw error).

Definition listRepositories : Eff World value :=
  try_catch
    (response <- fetch (baseUrl this ++ "/repositories") None ;;
     data <- json response ;;
     when (negb (resp_ok response))
       (detail <- step (get data "detail") ;;
        throw (new_Error (js_or detail (VStr "Failed to list repositories")))) ;;
     ret data)
    (fun error =>
       console_error "List repositories error:" error ;;
       throw error).

Definition getRepository (repoName : string) : Eff World value :=
  try_catch
    (response <- fetch (baseUrl this ++ "/repositories/" ++ repoName) None ;;
     data <- json response ;;
     when (negb (resp_ok response))
       (detail <- step (get data "detail") ;;
        throw (new_Error (js_or detail (VStr "Failed to get repository")))) ;;
     ret data)
    (fun error =>
       console_error "Get repository error:" error ;;
       throw error).

Definition extractAndPush (request : GitHubExtractRequest.t) : Eff World value :=
  try_catch
    (response <- fetch (baseUrl this ++ "/extract-and-push")
                   (Some {| method := POST;
                            headers := json_headers;
                            body := JSON_stringify (GitHubExtractRequest.to_value request) |}) ;;
     data <- json response ;;
     when (negb (resp_ok response))
       (detail <- step (get data "detail") ;;
        throw (new_Error (js_or detail (VStr "Failed to extract and push")))) ;;
     ret data)
    (fun error =>
       console_error "Extract and push error:" error ;;
       throw error).

Definition updateRepository (request : GitHubUpdateRequest.t) : Eff World value :=
  try_catch
    (response <- fetch (baseUrl this ++ "/update-repository")
                   (Some {| method := POST;
                            headers := json_headers;
                            body := JSON_stringify (GitHubUpdateRequest.to_value request) |}) ;;
     data <- json response ;;
     when (negb (resp_ok response))
       (detail <- step (get data "detail") ;;
        throw (new_Error (js_or detail (VStr "Failed to update repository")))) ;;
     ret data)
    (fun error =>
       console_error "Update repository error:" error ;;
       throw error).

Definition deleteRepository (repoName : string) : Eff World value :=
  try_catch
    (response <- fetch (baseUrl this ++ "/repositories/" ++ repoName)
                   (Some {| method := DELETE; headers := []; body := None |}) ;;
     data <- json response ;;
     when (negb (resp_ok response))
       (detail <- step (get data "detail") ;;
        throw (new_Error (js_or detail (VStr "Failed to delete repository")))) ;;
     ret data)
    (fun error =>
       console_error "Delete repository error:" error ;;
       throw error).

(** The literal pattern lists of [quickExtract]. *)
Definition default_include_patterns : list string :=
  ["*.py"; "*.js"; "*.ts"; "*.tsx"; "*.jsx"; "*.html"; "*.css"; "*.json"; "*.md"; "*.txt"].

Definition default_exclude_patterns : list string :=
  ["__pycache__"; "*.log"; "*.tmp"; ".DS_Store"; "node_modules"; ".git"].

(** The statements of [quickExtract], with the third parameter read
    under the name [isPrivate].  An argument left out (or passed as
    [undefined]) is [None] and takes its default, [''] or [false]. *)
Definition quickExtract_body (repoName : string) (description : option string)
    (isPrivate : option bool) : Eff World value :=
  let description := match description with Some d => d | None => EmptyString end in
  let isPrivate := match isPrivate with Some p => p | None => false end in
  description <-
    (if truthy (VStr description) then ret description
     else (iso <- now_iso ;;
           ret ("AI-generated code from Cube AI System - " ++ iso))) ;;
  let request :=
    {| GitHubExtractRequest.source_dir := "./generated";
       GitHubExtractRequest.repo_name := repoName;
       GitHubExtractRequest.description := description;
       GitHubExtractRequest.private := isPrivate;
       GitHubExtractRequest.include_patterns := Some default_include_patterns;
       GitHubExtractRequest.exclude_patterns := Some default_exclude_patterns |} in
  extractAndPush request.

(** [quickExtract(repoName, description = '', private = false)] as the
    class declares it.  The third parameter is named [private], a word
    reserved in class code, so the declaration has an early error and
    its statements are never reached. *)
Definition quickExtract (repoName : string) (description : option string)
    (private : option bool) : Eff World value :=
  declared ["repoName"; "description"; "private"]
    (quickExtract_body repoName description private).

Definition validateToken (token : string) : Eff World value :=
  try_catch
    (response <- fetch (baseUrl this ++ "/configure")
                   (Some {| method := POST;
                            headers := json_headers;
                            body := JSON_stringify
                                      (VObj [("token", VStr token);
                                             ("username", VStr "test")]) |}) ;;
     ret (VBool (resp_ok response)))
    (fun error => ret (VBool false)).

End Methods.

(** [export const githubService = new GitHubService()] *)
Definition githubService : GitHubService := new_GitHubService.

(* ===================================================================== *)
(** ** components/GitHubOperations.tsx *)
(* ===================================================================== *)

(** The component's [useState] cells that the repository handlers
    write.  [error] and [success] hold a string or [null]. *)
Record OpsState : Type := {
  repositories : value;
  loading : bool;
  error : value;
  success : value
}.

(** The state the component is mounted with. *)
Definition initial_ops : OpsState :=
  {| repositories := VArr []; loading := false; error := VNull; success := VNull |}.

(** A mounted component: its own state and the world around it. *)
Record Page : Type := { world : World; ops : OpsState }.

(** Run a service call from the component. *)
Definition call {A : Type} (m : Eff World A) : Eff Page A :=
  fun p =>
    match m (world p) with
    | (r, w') => (r, {| world := w'; ops := ops p |})
    end.

Definition set_ops (f : OpsState -> OpsState) : Eff Page unit :=
  fun p => (Return tt, {| world := world p; ops := f (ops p) |}).

Definition setRepositories (v : value) : Eff Page unit :=
  set_ops (fun o => {| repositories := v; loading := loading o;
                       error := error o; success := success o |}).

Definition setLoading (b : bool) : Eff Page unit :=
  set_ops (fun o => {| repositories := repositories o; loading := b;
                       error := error o; success := success o |}).

Definition setError (v : value) : Eff Page unit :=
  set_ops (fun o => {| repositories := repositories o; loading := loading o;
                       error := v; success := success o |}).

Definition setSuccess (v : value) : Eff Page unit :=
  set_ops (fun o => {| repositories := repositories o; loading := loading o;
                       error := error o; success := v |}).

Definition loadRepositories : Eff Page unit :=
  try_finally
    (try_catch
       (setLoading true ;;
        result <- call (listRepositories githubService) ;;
        (* result.success && result.repositories *)
        success <- step (get result "success") ;;
        test <- (if truthy success then step (get result "repositories")
                 else ret success) ;;
        when (truthy test)
          (repos <- step (get result "repositories") ;;
           setRepositories repos))
       (fun error =>
          call (console_error "Failed to load repositories:" error) ;;
          setError (VStr "Failed to load repositories")))
    (setLoading false).

Definition handleDeleteRepository (repoName : string) : Eff Page unit :=
  confirmed <- call (confirm ("Are you sure you want to delete the repository "
                              ++ dquote ++ repoName ++ dquote
                              ++ "? This action cannot be undone.")) ;;
  if negb confirmed then ret tt
  else
    try_finally
      (try_catch
         (setLoading true ;;
          setError VNull ;;
          setSuccess VNull ;;
          result <- call (deleteRepository githubService repoName) ;;
          success <- step (get result "success") ;;
          if truthy success then
            setSuccess (VStr ("Repository " ++ dquote ++ repoName ++ dquote
                              ++ " deleted successfully!")) ;;
            loadRepositories
          else
            (error <- step (get result "error") ;;
             setError (js_or error (VStr "Failed to delete repository"))))
         (fun error =>
            call (console_error "Delete repository error:" error) ;;
            setError (match error with
                      | JsError _ message => VStr message
                      | JsThrown _ => VStr "Failed to delete repository"
                      end)))
      (setLoading false).

(* ===================================================================== *)
(** ** The shape shared by the raising methods *)
(* ===================================================================== *)

(** How the body of a method settles once [fetch] has its answer:
    the parsed body on a 2xx response, otherwise the exception that
    leaves the [try] block. *)
Definition settle (fallback : string) (o : FetchOutcome) : completion value :=
  match o with
  | Rejected e => Throw e
  | Resolved r =>
      match resp_body r with
      | BodyReject e => Throw e
      | BodyJson data =>
          if resp_ok r then Return data
          else match get data "detail" with
               | Return detail => Throw (new_Error (js_or detail (VStr fallback)))
               | Throw e => Throw e
               end
      end
  end.

(** The seven methods that re-raise differ only in the request they
    build, the fallback message and the console label. *)
Definition request_json (input : string) (init : option RequestInit)
    (fallback label : string) : Eff World value :=
  try_catch
    (response <- fetch input init ;;
     data <- json response ;;
     when (negb (resp_ok response))
       (detail <- step (get data "detail") ;;
        throw (new_Error (js_or detail (VStr fallback)))) ;;
     ret data)
    (fun error => console_error label error ;; throw error).

(* ===================================================================== *)
(** ** The calls under the uniform error policy *)
(* ===================================================================== *)

(** A call of one of the methods that re-raise what they catch. *)
Inductive Call : Type :=
| Configure (config : GitHubConfig.t)
| CreateRepository (repo : GitHubRepository.t)
| ListRepositories
| GetRepository (repoName : string)
| ExtractAndPush (request : GitHubExtractRequest.t)
| UpdateRepository (request : GitHubUpdateRequest.t)
| DeleteRepository (repoName : string).

Definition run (this : GitHubService) (c : Call) : Eff World value :=
  match c with
  | Configure config => configure this config
  | CreateRepository repo => createRepository this repo
  | ListRepositories => listRepositories this
  | GetRepository repoName => getRepository this repoName
  | ExtractAndPush request => extractAndPush this request
  | UpdateRepository request => updateRepository this request
  | DeleteRepository repoName => deleteRepository this repoName
  end.

(** The message each method falls back to when the backend names none. *)
Definition fallback (c : Call) : string :=
  match c with
  | Configure _ => "Failed to configure GitHub"
  | CreateRepository _ => "Failed to create repository"
  | ListRepositories => "Failed to list repositories"
  | GetRepository _ => "Failed to get repository"
  | ExtractAndPush _ => "Failed to extract and push"
  | UpdateRepository _ => "Failed to update repository"
  | DeleteRepository _ => "Failed to delete repository"
  end.

Definition label (c : Call) : string :=
  match c with
  | Configure _ => "GitHub configuration error:"
  | CreateRepository _ => "Create repository error:"
  | ListRepositories => "List repositories error:"
  | GetRepository _ => "Get repository error:"
  | ExtractAndPush _ => "Extract and push error:"
  | UpdateRepository _ => "Update repository error:"
  | DeleteRepository _ => "Delete repository error:"
  end.

(** The request [quickExtract] describes, as the interface documents
    it: the fixed source directory, the given or generated description,
    the given or default visibility, the literal pattern lists. *)
Definition quick_request (now : Z) (repoName : string)
    (description : option string) (private : option bool)
  : GitHubExtractRequest.t :=
  {| GitHubExtractRequest.source_dir := "./generated";
     GitHubExtractRequest.repo_name := repoName;
     GitHubExtractRequest.description :=
       match description with
       | Some (String c rest) => String c rest
       | _ => "AI-generated code from Cube AI System - " ++ toISOString now
       end;
     GitHubExtractRequest.private :=
       match private with Some p => p | None => false end;
     GitHubExtractRequest.include_patterns :=
       Some ["*.py"; "*.js"; "*.ts"; "*.tsx"; "*.jsx"; "*.html"; "*.css";
             "*.json"; "*.md"; "*.txt"];
     GitHubExtractRequest.exclude_patterns :=
       Some ["__pycache__"; "*.log"; "*.tmp"; ".DS_Store"; "node_modules"; ".git"] |}.

Definition post (url : string) (payload : value) : Request :=
  {| req_url := url; req_method := POST;
     req_headers := [("Content-Type", "application/json")];
     req_body := JSON_stringify payload |}.

Definition bare (m : Method) (url : string) : Request :=
  {| req_url := url; req_method := m; req_headers := []; req_body := None |}.

(** The table of the external interface: method, path and body of the
    one request that belongs to each call. *)
Definition endpoint (this : GitHubService) (c : Call) (w : World) : Request :=
  match c with
  | Configure config =>
      post (baseUrl this ++ "/configure") (GitHubConfig.to_value config)
  | CreateRepository repo =>
      post (baseUrl this ++ "/repositories") (GitHubRepository.to_value repo)
  | ListRepositories => bare GET (baseUrl this ++ "/repositories")
  | GetRepository repoName => bare GET (baseUrl this ++ "/repositories/" ++ repoName)
  | ExtractAndPush request =>
      post (baseUrl this ++ "/extract-and-push") (GitHubExtractRequest.to_value request)
  | UpdateRepository request =>
      post (baseUrl this ++ "/update-repository") (GitHubUpdateRequest.to_value request)
  | DeleteRepository repoName =>
      bare DELETE (baseUrl this ++ "/repositories/" ++ repoName)
  end.

Definition status_request (this : GitHubService) : Request :=
  bare GET (baseUrl this ++ "/status").

Definition probe_request (this : GitHubService) (token : string) : Request :=
  post (baseUrl this ++ "/configure")
    (VObj [("token", VStr token); ("username", VStr "test")]).

(** *** Outcomes, in the words of the error taxonomy *)

(** The backend answered 2xx with a well-formed JSON body. *)
Inductive ok_json : FetchOutcome -> value -> Prop :=
| ok_json_2xx r data :
    resp_ok r = true ->
    resp_body r = BodyJson data ->
    ok_json (Resolved r) data.

(** The failure a call meets, and the exception that stands for it:
    a transport failure carries the underlying error, a non-2xx
    response carries the backend's [detail] text, or the call's
    fallback when the body, not being [null], has no [detail]. *)
Inductive failure (fallback : string) : FetchOutcome -> thrown -> Prop :=
| transport_failure e :
    failure fallback (Rejected e) e
| malformed_body r e :
    resp_body r = BodyReject e ->
    failure fallback (Resolved r) e
| backend_message r data s :
    resp_ok r = false ->
    resp_body r = BodyJson data ->
    get data "detail" = Return (VStr s) ->
    s <> EmptyString ->
    failure fallback (Resolved r) (JsError "Error" s)
| backend_fallback r data :
    resp_ok r = false ->
    resp_body r = BodyJson data ->
    get data "detail" = Return VUndefined ->
    failure fallback (Resolved r) (JsError "Error" fallback).

(** The value [getStatus] reports a failure with. *)
Definition not_configured (message : string) : value :=
  VObj [("configured", VBool false); ("error", VStr message)].

(** A world with nothing sent yet whose backend gives one fixed answer. *)
Definition world_answering (o : FetchOutcome) : World :=
  {| sent := []; console := []; dialogs := [];
     backend := fun _ _ => o;
     confirm_answer := fun _ => true;
     clock := 1700000000000 |}.

Definition respond (status : Z) (data : value) : FetchOutcome :=
  Resolved {| resp_status := status; resp_body := BodyJson data |}.

(** The description [quickExtract] generates when it is given none. *)
Definition generated_description (w : World) : string :=
  "AI-generated code from Cube AI System - " ++ toISOString (clock w).

(** The body has no property [key]. *)
Definition lacks (data : value) (key : string) : Prop :=
  match data with
  | VObj fields => lookup key fields = None
  | _ => True
  end.

Definition repositories_request : Request :=
  bare GET "http://localhost:8000/github/repositories".

(** What a caller reads as [status.configured]. *)
Definition configured_of (res : completion value) : completion value :=
  match res with
  | Return status => get status "configured"
  | Throw e => Throw e
  end.

(* ===================================================================== *)
(** ** String methods the components use *)
(* ===================================================================== *)

(** Strings are UTF-8 text, one [ascii] per byte.  The white space that
    [String.prototype.trim] strips is the tab, the line feed, the
    vertical tab, the form feed, the carriage return and the space,
    and, in two or three bytes, U+00A0, U+1680, U+2000 to U+200A,
    U+2028, U+2029, U+202F, U+205F, U+3000 and U+FEFF. *)
Definition ws1 (a : N) : bool :=
  ((9 <=? a) && (a <=? 13) || (a =? 32))%N.

Definition ws2 (a b : N) : bool :=
  ((a =? 194) && (b =? 160))%N.

Definition ws3 (a b c : N) : bool :=
  ((a =? 225) && (b =? 154) && (c =? 128)
   || (a =? 226) && (b =? 128)
      && ((128 <=? c) && (c <=? 138) || (c =? 168) || (c =? 169) || (c =? 175))
   || (a =? 226) && (b =? 129) && (c =? 159)
   || (a =? 227) && (b =? 128) && (c =? 128)
   || (a =? 239) && (b =? 187) && (c =? 191))%N.

(** Drop the white space a string starts with; [two] and [three]
    recognise the multi-byte characters. *)
Fixpoint strip (two : N -> N -> bool) (three : N -> N -> N -> bool) (s : string)
  : string :=
  match s with
  | EmptyString => EmptyString
  | String a rest =>
      if ws1 (N_of_ascii a) then strip two three rest
      else
        match rest with
        | EmptyString => s
        | String b rest2 =>
            if two (N_of_ascii a) (N_of_ascii b) then strip two three rest2
            else
              match rest2 with
              | EmptyString => s
              | String c rest3 =>
                  if three (N_of_ascii a) (N_of_ascii b) (N_of_ascii c)
                  then strip two three rest3
                  else s
              end
        end
  end.

Fixpoint reverse (s : string) : string :=
  match s with
  | EmptyString => EmptyString
  | String a rest => reverse rest ++ String a EmptyString
  end.

Definition trimStart (s : string) : string := strip ws2 ws3 s.

(** The same from the other end: on the reversed text the bytes of a
    character come last byte first. *)
Definition trimEnd (s : string) : string :=
  reverse (strip (fun b a => ws2 a b) (fun c b a => ws3 a b c) (reverse s)).

(** [s.trim()] *)
Definition trim (s : string) : string := trimEnd (trimStart s).

(** [s.slice(0, n)] *)
Definition slice_to (n : nat) (s : string) : string := substring 0 n s.

(** [s.replace(/x/g, y)] for single characters [x] and [y]. *)
Fixpoint replace_all (x y : ascii) (s : string) : string :=
  match s with
  | EmptyString => EmptyString
  | String a rest =>
      String (if Ascii.eqb a x then y else a) (replace_all x y rest)
  end.

(** [error instanceof Error ? error.message : otherwise], as the
    handlers write it. *)
Definition message_or (otherwise : string) (e : thrown) : value :=
  match e with
  | JsError _ message => VStr message
  | JsThrown _ => VStr otherwise
  end.

(* ===================================================================== *)
(** ** components/GitHubOperations.tsx, the forms *)
(* ===================================================================== *)

(** The [useState] cells behind the two forms of the panel. *)
Module Form.
Record t : Type := {
  repoName : string;
  repoDescription : string;
  isPrivate : bool;
  sourceDir : string;
  extractRepoName : string;
  extractDescription : string;
  extractPrivate : bool
}.

Definition initial : t :=
  {| repoName := EmptyString; repoDescription := EmptyString; isPrivate := false;
     sourceDir := "./generated";
     extractRepoName := EmptyString; extractDescription := EmptyString;
     extractPrivate := false |}.
End Form.

(** The whole panel: the cells of [OpsState], the forms, the world. *)
Record Panel : Type := { page : Page; form : Form.t }.

Definition on_page {A : Type} (m : Eff Page A) : Eff Panel A :=
  fun s =>
    match m (page s) with
    | (r, p') => (r, {| page := p'; form := form s |})
    end.

Definition set_form (f : Form.t -> Form.t) : Eff Panel unit :=
  fun s => (Return tt, {| page := page s; form := f (form s) |}).

(** The values a handler sees are those of the render it was created
    in: it reads the form once, when it starts. *)
Definition rendered_form : Eff Panel Form.t :=
  fun s => (Return (form s), s).

Definition setRepoName (v : string) : Eff Panel unit :=
  set_form (fun f =>
    {| Form.repoName := v;
       Form.repoDescription := Form.repoDescription f;
       Form.isPrivate := Form.isPrivate f;
       Form.sourceDir := Form.sourceDir f;
       Form.extractRepoName := Form.extractRepoName f;
       Form.extractDescription := Form.extractDescription f;
       Form.extractPrivate := Form.extractPrivate f |}).

Definition setRepoDescription (v : string) : Eff Panel unit :=
  set_form (fun f =>
    {| Form.repoName := Form.repoName f;
       Form.repoDescription := v;
       Form.isPrivate := Form.isPrivate f;
       Form.sourceDir := Form.sourceDir f;
       Form.extractRepoName := Form.extractRepoName f;
       Form.extractDescription := Form.extractDescription f;
       Form.extractPrivate := Form.extractPrivate f |}).

Definition setIsPrivate (v : bool) : Eff Panel unit :=
  set_form (fun f =>
    {| Form.repoName := Form.repoName f;
       Form.repoDescription := Form.repoDescription f;
       Form.isPrivate := v;
       Form.sourceDir := Form.sourceDir f;
       Form.extractRepoName := Form.extractRepoName f;
       Form.extractDescription := Form.extractDescription f;
       Form.extractPrivate := Form.extractPrivate f |}).

Definition setExtractRepoName (v : string) : Eff Panel unit :=
  set_form (fun f =>
    {| Form.repoName := Form.repoName f;
       Form.repoDescription := Form.repoDescription f;
       Form.isPrivate := Form.isPrivate f;
       Form.sourceDir := Form.sourceDir f;
       Form.extractRepoName := v;
       Form.extractDescription := Form.extractDescription f;
       Form.extractPrivate := Form.extractPrivate f |}).

Definition setExtractDescription (v : string) : Eff Panel unit :=
  set_form (fun f =>
    {| Form.repoName := Form.repoName f;
       Form.repoDescription := Form.repoDescription f;
       Form.isPrivate := Form.isPrivate f;
       Form.sourceDir := Form.sourceDir f;
       Form.extractRepoName := Form.extractRepoName f;
       Form.extractDescription := v;
       Form.extractPrivate := Form.extractPrivate f |}).

Definition setExtractPrivate (v : bool) : Eff Panel unit :=
  set_form (fun f =>
    {| Form.repoName := Form.repoName f;
       Form.repoDescription := Form.repoDescription f;
       Form.isPrivate := Form.isPrivate f;
       Form.sourceDir := Form.sourceDir f;
       Form.extractRepoName := Form.extractRepoName f;
       Form.extractDescription := Form.extractDescription f;
       Form.extractPrivate := v |}).

(** The effect the panel runs when it is mounted and whenever
    [githubStatus.configured] changes. *)
Definition load_when_configured (githubStatus : value) : Eff Page unit :=
  configured <- step (get githubStatus "configured") ;;
  when (truthy configured) loadRepositories.

Definition handleCreateRepository : Eff Panel unit :=
  f <- rendered_form ;;
  if negb (truthy (VStr (trim (Form.repoName f)))) then
    on_page (setError (VStr "Please provide a repository name"))
  else
    try_finally
      (try_catch
         (on_page (setLoading true) ;;
          on_page (setError VNull) ;;
          on_page (setSuccess VNull) ;;
          result <- on_page (call (createRepository githubService
                      {| GitHubRepository.name := Form.repoName f;
                         GitHubRepository.description := Form.repoDescription f;
                         GitHubRepository.private := Form.isPrivate f;
                         GitHubRepository.auto_init := None;
                         GitHubRepository.gitignore_template := None |})) ;;
          success <- step (get result "success") ;;
          if truthy success then
            on_page (setSuccess (VStr ("Repository " ++ dquote ++ Form.repoName f
                                       ++ dquote ++ " created successfully!"))) ;;
            setRepoName EmptyString ;;
            setRepoDescription EmptyString ;;
            setIsPrivate false ;;
            on_page loadRepositories
          else
            (error <- step (get result "error") ;;
             on_page (setError (js_or error (VStr "Failed to create repository")))))
         (fun error =>
            on_page (call (console_error "Create repository error:" error)) ;;
            on_page (setError (message_or "Failed to create repository" error))))
      (on_page (setLoading false)).

Definition handleExtractAndPush : Eff Panel unit :=
  f <- rendered_form ;;
  if negb (truthy (VStr (trim (Form.extractRepoName f)))) then
    on_page (setError (VStr "Please provide a repository name"))
  else
    try_finally
      (try_catch
         (on_page (setLoading true) ;;
          on_page (setError VNull) ;;
          on_page (setSuccess VNull) ;;
          description <-
            (if truthy (VStr (Form.extractDescription f))
             then ret (Form.extractDescription f)
             else (iso <- on_page (call now_iso) ;;
                   ret ("AI-generated code from Cube AI System - " ++ iso))) ;;
          result <- on_page (call (extractAndPush githubService
                      {| GitHubExtractRequest.source_dir := Form.sourceDir f;
                         GitHubExtractRequest.repo_name := Form.extractRepoName f;
                         GitHubExtractRequest.description := description;
                         GitHubExtractRequest.private := Form.extractPrivate f;
                         GitHubExtractRequest.include_patterns := None;
                         GitHubExtractRequest.exclude_patterns := None |})) ;;
          success <- step (get result "success") ;;
          if truthy success then
            on_page (setSuccess (VStr ("Code extracted and pushed to " ++ dquote
                                       ++ Form.extractRepoName f ++ dquote
                                       ++ " successfully!"))) ;;
            setExtractRepoName EmptyString ;;
            setExtractDescription EmptyString ;;
            setExtractPrivate false ;;
            on_page loadRepositories
          else
            (error <- step (get result "error") ;;
             on_page (setError (js_or error (VStr "Failed to extract and push code")))))
         (fun error =>
            on_page (call (console_error "Extract and push error:" error)) ;;
            on_page (setError (message_or "Failed to extract and push code" error))))
      (on_page (setLoading false)).

Definition handleQuickExtract : Eff Panel unit :=
  iso <- on_page (call now_iso) ;;
  let defaultName :=
    "ai-generated-" ++ replace_all ":" "-" (slice_to 19 iso) in
  setExtractRepoName defaultName ;;
  iso <- on_page (call now_iso) ;;
  setExtractDescription ("AI-generated code from Cube AI System - " ++ iso).

(* ===================================================================== *)
(** ** components/GitHubConfig.tsx and components/GitHubPage.tsx *)
(* ===================================================================== *)

(** A mounted component: the world, its own [useState] cells, and the
    state of the parent its callbacks act on. *)
Record Mounted (St P : Type) : Type := {
  m_world : World;
  m_state : St;
  m_parent : P
}.
Arguments m_world {St P} _.
Arguments m_state {St P} _.
Arguments m_parent {St P} _.

Definition in_world {St P A : Type} (m : Eff World A) : Eff (Mounted St P) A :=
  fun s =>
    match m (m_world s) with
    | (r, w') => (r, {| m_world := w'; m_state := m_state s; m_parent := m_parent s |})
    end.

Definition in_parent {St P A : Type} (m : Eff P A) : Eff (Mounted St P) A :=
  fun s =>
    match m (m_parent s) with
    | (r, p') => (r, {| m_world := m_world s; m_state := m_state s; m_parent := p' |})
    end.

Definition update {St P : Type} (f : St -> St) : Eff (Mounted St P) unit :=
  fun s => (Return tt,
            {| m_world := m_world s; m_state := f (m_state s); m_parent := m_parent s |}).

Definition rendered {St P : Type} : Eff (Mounted St P) St :=
  fun s => (Return (m_state s), s).

(** [callback?.(argument)] *)
Definition optional_call {St P : Type} (callback : option (value -> Eff P unit))
    (argument : value) : Eff (Mounted St P) unit :=
  match callback with
  | Some f => in_parent (f argument)
  | None => ret tt
  end.

(** *** GitHubPage *)

(** ['config' | 'operations'] *)
Inductive Tab : Type := TabConfig | TabOperations.

Module GitHubPage.
Record t : Type := { activeTab : Tab; githubStatus : value }.

Definition initial : t :=
  {| activeTab := TabConfig; githubStatus := VObj [("configured", VBool false)] |}.

Definition with_tab (tab : Tab) (s : t) : t :=
  {| activeTab := tab; githubStatus := githubStatus s |}.

Definition with_status (status : value) (s : t) : t :=
  {| activeTab := activeTab s; githubStatus := status |}.

Definition setActiveTab (tab : Tab) : Eff t unit :=
  fun s => (Return tt, with_tab tab s).

Definition setGitHubStatus (status : value) : Eff t unit :=
  fun s => (Return tt, with_status status s).

Definition handleConfigChange (status : value) : Eff t unit :=
  setGitHubStatus status ;;
  configured <- step (get status "configured") ;;
  when (truthy configured) (setActiveTab TabOperations).

Definition checkGitHubStatus : Eff (Mounted t unit) unit :=
  try_catch
    (status <- in_world (getStatus githubService) ;;
     update (with_status status))
    (fun error =>
       in_world (console_error "Failed to check GitHub status:" error) ;;
       update (with_status (VObj [("configured", VBool false);
                                  ("error", VStr "Failed to check status")]))).
End GitHubPage.

(** *** GitHubConfig, the component *)

Module ConfigForm.
Record t : Type := {
  token : string;
  username : string;
  status : value;
  loading : bool;
  error : value;
  success : value
}.

Definition initial : t :=
  {| token := EmptyString; username := EmptyString; status := VNull;
     loading := false; error := VNull; success := VNull |}.

Section Component.

Context {P : Type}.

(** The [onConfigChange] property. *)
Variable onConfigChange : option (value -> Eff P unit).

Definition setToken (v : string) : Eff (Mounted t P) unit :=
  update (fun s => {| token := v; username := username s; status := status s;
                      loading := loading s; error := error s; success := success s |}).

Definition setUsername (v : string) : Eff (Mounted t P) unit :=
  update (fun s => {| token := token s; username := v; status := status s;
                      loading := loading s; error := error s; success := success s |}).

Definition setStatus (v : value) : Eff (Mounted t P) unit :=
  update (fun s => {| token := token s; username := username s; status := v;
                      loading := loading s; error := error s; success := success s |}).

Definition setLoading (v : bool) : Eff (Mounted t P) unit :=
  update (fun s => {| token := token s; username := username s; status := status s;
                      loading := v; error := error s; success := success s |}).

Definition setError (v : value) : Eff (Mounted t P) unit :=
  update (fun s => {| token := token s; username := username s; status := status s;
                      loading := loading s; error := v; success := success s |}).

Definition setSuccess (v : value) : Eff (Mounted t P) unit :=
  update (fun s => {| token := token s; username := username s; status := status s;
                      loading := loading s; error := error s; success := v |}).

Definition checkStatus : Eff (Mounted t P) unit :=
  try_finally
    (try_catch
       (setLoading true ;;
        currentStatus <- in_world (getStatus githubService) ;;
        setStatus currentStatus ;;
        optional_call onConfigChange currentStatus)
       (fun error =>
          in_world (console_error "Failed to check GitHub status:" error) ;;
          setError (VStr "Failed to check GitHub status")))
    (setLoading false).

Definition handleConfigure : Eff (Mounted t P) unit :=
  s <- rendered ;;
  if negb (truthy (VStr (trim (token s)))) || negb (truthy (VStr (trim (username s))))
  then setError (VStr "Please provide both token and username")
  else
    try_finally
      (try_catch
         (setLoading true ;;
          setError VNull ;;
          setSuccess VNull ;;
          result <- in_world (configure githubService
                      {| GitHubConfig.token := token s;
                         GitHubConfig.username := username s |}) ;;
          success <- step (get result "success") ;;
          if truthy success then
            setSuccess (VStr "GitHub configured successfully!") ;;
            setToken EmptyString ;;
            setUsername EmptyString ;;
            checkStatus
          else
            (error <- step (get result "error") ;;
             setError (js_or error (VStr "Configuration failed"))))
         (fun error =>
            in_world (console_error "GitHub configuration error:" error) ;;
            setError (message_or "Configuration failed" error)))
      (setLoading false).

Definition disconnected : value :=
  VObj [("configured", VBool false); ("message", VStr "GitHub disconnected")].

Definition handleDisconnect : Eff (Mounted t P) unit :=
  try_finally
    (try_catch
       (setLoading true ;;
        in_world (configure githubService
                    {| GitHubConfig.token := EmptyString;
                       GitHubConfig.username := EmptyString |}) ;;
        setStatus disconnected ;;
        optional_call onConfigChange disconnected ;;
        setSuccess (VStr "GitHub disconnected successfully"))
       (fun error =>
          in_world (console_error "Failed to disconnect GitHub:" error) ;;
          setError (VStr "Failed to disconnect GitHub")))
    (setLoading false).

End Component.
End ConfigForm.

(** The character [a] occurs in [s]. *)
Fixpoint occurs (a : ascii) (s : string) : bool :=
  match s with
  | EmptyString => false
  | String b rest => Ascii.eqb b a || occurs a rest
  end.

(** The repository the create form describes, and the extraction the
    extract form describes: neither names any optional field. *)
Definition form_repository (f : Form.t) : GitHubRepository.t :=
  {| GitHubRepository.name := Form.repoName f;
     GitHubRepository.description := Form.repoDescription f;
     GitHubRepository.private := Form.isPrivate f;
     GitHubRepository.auto_init := None;
     GitHubRepository.gitignore_template := None |}.

Definition form_extraction (now : Z) (f : Form.t) : GitHubExtractRequest.t :=
  {| GitHubExtractRequest.source_dir := Form.sourceDir f;
     GitHubExtractRequest.repo_name := Form.extractRepoName f;
     GitHubExtractRequest.description :=
       match Form.extractDescription f with
       | EmptyString => "AI-generated code from Cube AI System - " ++ toISOString now
       | String a rest => String a rest
       end;
     GitHubExtractRequest.private := Form.extractPrivate f;
     GitHubExtractRequest.include_patterns := None;
     GitHubExtractRequest.exclude_patterns := None |}.

(** The create form after a successful creation, and the extract form
    after a successful push. *)
Definition create_form_cleared (f : Form.t) : Form.t :=
  {| Form.repoName := EmptyString;
     Form.repoDescription := EmptyString;
     Form.isPrivate := false;
     Form.sourceDir := Form.sourceDir f;
     Form.extractRepoName := Form.extractRepoName f;
     Form.extractDescription := Form.extractDescription f;
     Form.extractPrivate := Form.extractPrivate f |}.

Definition extract_form_cleared (f : Form.t) : Form.t :=
  {| Form.repoName := Form.repoName f;
     Form.repoDescription := Form.repoDescription f;
     Form.isPrivate := Form.isPrivate f;
     Form.sourceDir := Form.sourceDir f;
     Form.extractRepoName := EmptyString;
     Form.extractDescription := EmptyString;
     Form.extractPrivate := false |}.

(** The prompt [handleDeleteRepository] shows. *)
Definition delete_prompt (repoName : string) : string :=
  "Are you sure you want to delete the repository " ++ dquote ++ repoName
  ++ dquote ++ "? This action cannot be undone.".

(** [data.key] is there and truthy. *)
Definition truthy_at (data : value) (key : string) : Prop :=
  exists v, get data key = Return v /\ truthy v = true.

(** [data.key] can be read and is falsy (or absent). *)
Definition falsy_at (data : value) (key : string) : Prop :=
  exists v, get data key = Return v /\ truthy v = false.

(** What [callback?.(status)] does to the parent. *)
Definition notified {P : Type} (callback : option (value -> Eff P unit))
    (status : value) (parent : P) : completion unit * P :=
  match callback with
  | Some f => f status parent
  | None => (Return tt, parent)
  end.

(* ===================================================================== *)
(** ** Basic facts *)
(* ===================================================================== *)

(** Follow a method body through the answer to its request: the
    rejection, the unreadable body, the 2xx answer, and the non-2xx
    answer with or without a readable [detail]. *)
Ltac by_outcome w :=
  unfold try_catch, bind, fetch, json, settle; cbn;
  destruct (answer w _) as [? | r]; cbn; [reflexivity |];
  destruct (resp_body r) as [data | ?]; cbn; [| reflexivity];
  destruct (resp_ok r); cbn; [reflexivity |];
  unfold step;
  destruct (get data "detail"); reflexivity.

Lemma request_json_run input init fallback label w :
  request_json input init fallback label w =
  let req := make_request input init in
  match settle fallback (answer w req) with
  | Return data => (Return data, log_request req w)
  | Throw e => (Throw e, log_console label e (log_request req w))
  end.
Proof.
  unfold request_json. by_outcome w.
Qed.

Lemma getStatus_run this w :
  getStatus this w =
  let req := make_request (baseUrl this ++ "/status") None in
  match settle "Failed to get GitHub status" (answer w req) with
  | Return data => (Return data, log_request req w)
  | Throw e =>
      (Return (VObj [("configured", VBool false);
                     ("error", match e with
                               | JsError _ message => VStr message
                               | JsThrown _ => VStr "Unknown error"
                               end)]),
       log_console "GitHub status error:" e (log_request req w))
  end.
Proof.
  unfold getStatus. by_outcome w.
Qed.

Lemma validateToken_run this token w :
  validateToken this token w =
  let req := make_request (baseUrl this ++ "/configure")
               (Some {| method := POST; headers := json_headers;
                        body := JSON_stringify
                                  (VObj [("token", VStr token);
                                         ("username", VStr "test")]) |}) in
  (Return (VBool match answer w req with
                 | Resolved r => resp_ok r
                 | Rejected _ => false
                 end),
   log_request req w).
Proof.
  unfold validateToken, try_catch, bind, fetch; cbn.
  destruct (answer w _); reflexivity.
Qed.

Lemma append_assoc (a b c : string) : (a ++ b) ++ c = a ++ b ++ c.
Proof.
  induction a as [| ch a IH]; cbn; [reflexivity | now rewrite IH].
Qed.

Lemma status_ge_400_not_ok r : 400 <= resp_status r -> resp_ok r = false.
Proof.
  intros H. unfold resp_ok.
  apply andb_false_iff. right. apply Z.leb_gt. lia.
Qed.

Lemma truthy_nonempty s : s <> EmptyString -> truthy (VStr s) = true.
Proof.
  intros H. destruct s as [| c rest]; [contradiction | reflexivity].
Qed.

Lemma settle_success fb o data : ok_json o data -> settle fb o = Return data.
Proof.
  intros [r d Hok Hbody]. cbn. now rewrite Hbody, Hok.
Qed.

Lemma settle_failure fb o e : failure fb o e -> settle fb o = Throw e.
Proof.
  intros [e' | r e' Hbody | r data s Hok Hbody Hget Hs | r data Hok Hbody Hget]; cbn.
  - reflexivity.
  - now rewrite Hbody.
  - rewrite Hbody, Hok, Hget. unfold js_or, new_Error.
    rewrite (truthy_nonempty s Hs). reflexivity.
  - rewrite Hbody, Hok, Hget. reflexivity.
Qed.

(** Every outcome is a success or makes the method body raise. *)
Lemma settle_cases fb o :
  (exists data, ok_json o data /\ settle fb o = Return data)
  \/ (exists e, settle fb o = Throw e /\ forall data, ~ ok_json o data).
Proof.
  destruct o as [e | r]; cbn.
  - right. exists e. split; [reflexivity | intros d H; inversion H].
  - destruct (resp_body r) as [data | e] eqn:Hbody.
    + destruct (resp_ok r) eqn:Hok.
      * left. exists data. split; [now constructor | reflexivity].
      * right. destruct (get data "detail") as [detail | e];
          eexists; (split; [reflexivity |]);
          intros d H; inversion H; congruence.
    + right. exists e. split; [reflexivity |].
      intros d H; inversion H; congruence.
Qed.

Lemma run_settles this c w :
  run this c w =
  let req := endpoint this c w in
  match settle (fallback c) (answer w req) with
  | Return data => (Return data, log_request req w)
  | Throw e => (Throw e, log_console (label c) e (log_request req w))
  end.
Proof.
  destruct c as [config | repo | | repoName | request | request | repoName];
    cbn [run]; apply request_json_run.
Qed.

(* ===================================================================== *)
(** ** getStatus *)
(* ===================================================================== *)

(** Every call is fire-once: one request is logged, and nothing else
    of the world changes but the console. *)
Lemma run_effects this c w :
  sent (after (run this c w)) = (sent w ++ [endpoint this c w])%list
  /\ dialogs (after (run this c w)) = dialogs w
  /\ clock (after (run this c w)) = clock w.
Proof.
  unfold after. rewrite run_settles. cbv zeta.
  destruct (settle _ _); cbn; auto.
Qed.

Lemma getStatus_returns this w : exists v, result (getStatus this w) = Return v.
Proof.
  unfold result. rewrite getStatus_run. cbv zeta.
  destruct (settle _ _); eexists; reflexivity.
Qed.

(** C1.  [getStatus] never raises.  Whatever the HTTP call does, it
    returns a value: the parsed body when the backend answered 2xx with
    well-formed JSON, and in every other case an object
    [{configured: false, error: message}]; for a transport failure, a
    malformed body or a non-2xx answer, [message] is the message of
    that failure. *)
Theorem getStatus_never_raises (this : GitHubService) (w : World) :
  let o := answer w (status_request this) in
  let res := result (getStatus this w) in
  (exists v, res = Return v)
  /\ (forall data, ok_json o data -> res = Return data)
  /\ (forall name message,
         failure "Failed to get GitHub status" o (JsError name message) ->
         res = Return (not_configured message))
  /\ ((forall data, ~ ok_json o data) ->
      exists message, res = Return (not_configured message)).
Proof.
  cbv zeta. repeat split; [apply getStatus_returns | | |];
    unfold result; rewrite getStatus_run; cbv zeta;
    change (make_request (baseUrl this ++ "/status") None) with (status_request this).
  - intros data H. now rewrite (settle_success _ _ _ H).
  - intros name message H. now rewrite (settle_failure _ _ _ H).
  - intros Hno.
    destruct (settle_cases "Failed to get GitHub status"
                (answer w (status_request this)))
      as [(data & Hok & _) | (e & He & _)].
    + destruct (Hno data Hok).
    + rewrite He. destruct e; eexists; reflexivity.
Qed.

Lemma getStatus_never_raises_witness :
  result (getStatus githubService
            (world_answering
               (respond 503 (VObj [("detail", VStr "GitHub is unreachable")]))))
  = Return (not_configured "GitHub is unreachable").
Proof.
  apply (proj1 (proj2 (proj2 (getStatus_never_raises githubService _)))
           "Error" "GitHub is unreachable").
  eapply backend_message; [reflexivity | reflexivity | reflexivity | discriminate].
Defined.

(** One request goes out, and the failure is written to the console. *)
Lemma getStatus_effects this w :
  sent (after (getStatus this w)) = (sent w ++ [status_request this])%list
  /\ dialogs (after (getStatus this w)) = dialogs w
  /\ clock (after (getStatus this w)) = clock w.
Proof.
  unfold after. rewrite getStatus_run. cbv zeta.
  destruct (settle _ _); cbn; auto.
Qed.

(** A rejection that is not an [Error] has no message to report. *)
Example getStatus_unknown_error :
  result (getStatus githubService (world_answering (Rejected (JsThrown (VStr "offline")))))
  = Return (not_configured "Unknown error").
Proof. reflexivity. Qed.

(** A non-2xx answer whose body is [null]: reading [detail] fails, and
    that failure is what gets reported. *)
Example getStatus_null_body :
  result (getStatus githubService (world_answering (respond 500 VNull)))
  = Return (not_configured "Cannot read properties of null (reading 'detail')").
Proof. reflexivity. Qed.

(* ===================================================================== *)
(** ** The error policy *)
(* ===================================================================== *)

(** C2, as stated, fails.  [validateToken] is a client call other than
    [getStatus]; on a 401 answer whose body carries
    [detail: "Bad credentials"] it returns [false] and raises nothing. *)
Lemma validateToken_breaks_uniform_policy :
  let w := world_answering
             (respond 401 (VObj [("detail", VStr "Bad credentials")])) in
  exists r data,
    answer w (probe_request githubService "t1") = Resolved r
    /\ 400 <= resp_status r
    /\ resp_body r = BodyJson data
    /\ get data "detail" = Return (VStr "Bad credentials")
    /\ result (validateToken githubService "t1" w) = Return (VBool false)
    /\ forall e, result (validateToken githubService "t1" w) <> Throw e.
Proof.
  cbv zeta. do 2 eexists.
  split; [reflexivity |].
  split; [cbn; lia |].
  split; [reflexivity |].
  split; [reflexivity |].
  split; [reflexivity |].
  intros e. discriminate.
Qed.

(** C2, amended.  For each of the seven methods that re-raise
    ([configure], [createRepository], [listRepositories],
    [getRepository], [extractAndPush], [updateRepository],
    [deleteRepository]): a transport failure or a malformed body raises
    the underlying error; a non-2xx answer (so any status from 400 up)
    whose [detail] is a non-empty string raises an [Error] with that
    string as message; one whose body is not [null] and has no
    [detail] raises an [Error] with the call's fallback message; one
    whose body is [null] raises the [TypeError] of reading [detail]
    from it.  In the same world neither [getStatus] nor
    [validateToken] raises. *)
Theorem raising_calls_follow_policy
    (this : GitHubService) (c : Call) (w : World) :
  let o := answer w (endpoint this c w) in
  (forall e, failure (fallback c) o e -> result (run this c w) = Throw e)
  /\ (forall r,
        o = Resolved r ->
        resp_ok r = false ->
        resp_body r = BodyJson VNull ->
        exists message, result (run this c w) = Throw (JsError "TypeError" message))
  /\ (exists v, result (getStatus this w) = Return v)
  /\ (forall token, exists b, result (validateToken this token w) = Return (VBool b)).
Proof.
  cbv zeta. split; [| split; [| split]].
  - intros e H. unfold result. rewrite run_settles. cbv zeta.
    now rewrite (settle_failure _ _ _ H).
  - intros r Hans Hok Hbody. unfold result. rewrite run_settles. cbv zeta.
    rewrite Hans. cbn [settle]. rewrite Hbody, Hok. cbn.
    eexists. reflexivity.
  - apply getStatus_returns.
  - intros token. unfold result. rewrite validateToken_run. cbv zeta.
    eexists. reflexivity.
Qed.

Lemma raising_calls_follow_policy_witness :
  result (run githubService (DeleteRepository "r1")
            (world_answering (respond 404 (VObj [("detail", VStr "Not Found")]))))
  = Throw (JsError "Error" "Not Found").
Proof.
  apply (proj1 (raising_calls_follow_policy githubService (DeleteRepository "r1")
                  (world_answering
                     (respond 404 (VObj [("detail", VStr "Not Found")]))))).
  eapply backend_message;
    [apply status_ge_400_not_ok; cbn; lia | reflexivity | reflexivity | discriminate].
Defined.

(** A [null] body on a non-2xx answer: no fallback, a [TypeError]. *)
Example deleteRepository_null_body :
  result (deleteRepository githubService "r1" (world_answering (respond 500 VNull)))
  = Throw (JsError "TypeError" "Cannot read properties of null (reading 'detail')").
Proof. reflexivity. Qed.

(** Why the amendment asks for a non-empty string: an empty [detail]
    is falsy and gives way to the fallback, and a [detail] that is not
    a string is converted to one. *)
Example configure_empty_detail :
  result (configure githubService
            {| GitHubConfig.token := "t1"; GitHubConfig.username := "u1" |}
            (world_answering (respond 400 (VObj [("detail", VStr EmptyString)]))))
  = Throw (JsError "Error" "Failed to configure GitHub").
Proof. reflexivity. Qed.

Example configure_structured_detail :
  result (configure githubService
            {| GitHubConfig.token := "t1"; GitHubConfig.username := "u1" |}
            (world_answering
               (respond 422 (VObj [("detail", VArr [VObj [("msg", VStr "field required")]])]))))
  = Throw (JsError "Error" "[object Object]").
Proof. reflexivity. Qed.

(** The end-to-end scenario of the interface description. *)
Example extractAndPush_missing_source_dir :
  result (extractAndPush githubService
            {| GitHubExtractRequest.source_dir := "./nowhere";
               GitHubExtractRequest.repo_name := "r1";
               GitHubExtractRequest.description := "d";
               GitHubExtractRequest.private := false;
               GitHubExtractRequest.include_patterns := None;
               GitHubExtractRequest.exclude_patterns := None |}
            (world_answering
               (respond 400 (VObj [("detail", VStr "Source directory does not exist")]))))
  = Throw (JsError "Error" "Source directory does not exist").
Proof. reflexivity. Qed.

(* ===================================================================== *)
(** ** configure *)
(* ===================================================================== *)

Lemma configure_endpoint config w :
  endpoint githubService (Configure config) w =
  {| req_url := "http://localhost:8000/github/configure";
     req_method := POST;
     req_headers := [("Content-Type", "application/json")];
     req_body :=
       Some ("{" ++ quote "token" ++ ":" ++ quote (GitHubConfig.token config)
             ++ "," ++ quote "username" ++ ":"
             ++ quote (GitHubConfig.username config) ++ "}") |}.
Proof.
  unfold endpoint, post. cbn. unfold quote. cbn.
  repeat (rewrite !append_assoc; cbn). reflexivity.
Qed.

(** C3.  [configure] hands exactly one request to [fetch]: a POST to
    [http://localhost:8000/github/configure] whose body is the JSON text
    of the credentials, [token] first and [username] second.  When the
    backend answers 2xx with a well-formed body, that body is returned
    as it is.  Nothing here needs the token or the username to be
    non-empty. *)
Theorem configure_posts_credentials (config : GitHubConfig.t) (w : World) :
  let req :=
    {| req_url := "http://localhost:8000/github/configure";
       req_method := POST;
       req_headers := [("Content-Type", "application/json")];
       req_body :=
         Some ("{" ++ quote "token" ++ ":" ++ quote (GitHubConfig.token config)
               ++ "," ++ quote "username" ++ ":"
               ++ quote (GitHubConfig.username config) ++ "}") |} in
  sent (after (configure githubService config w)) = (sent w ++ [req])%list
  /\ req_body req = JSON_stringify (GitHubConfig.to_value config)
  /\ forall data,
       ok_json (answer w req) data ->
       configure githubService config w = (Return data, log_request req w).
Proof.
  cbv zeta.
  pose proof (run_settles githubService (Configure config) w) as Hrun.
  cbn [run] in Hrun. cbv zeta in Hrun.
  rewrite (configure_endpoint config w) in Hrun.
  repeat split.
  - unfold after. rewrite Hrun. destruct (settle _ _); reflexivity.
  - symmetry. exact (f_equal req_body (configure_endpoint config w)).
  - intros data H. rewrite Hrun.
    now rewrite (settle_success _ _ _ H).
Qed.

(** The scenario of the interface description: the backend accepts the
    credentials and its answer comes back unchanged. *)
Lemma configure_posts_credentials_witness :
  let accepted := VObj [("success", VBool true); ("message", VStr "GitHub configured");
                        ("user", VStr "u1"); ("username", VStr "u1")] in
  result (configure githubService
            {| GitHubConfig.token := "t1"; GitHubConfig.username := "u1" |}
            (world_answering (respond 200 accepted)))
  = Return accepted.
Proof.
  cbv zeta. unfold result.
  rewrite (proj2 (proj2 (configure_posts_credentials
                           {| GitHubConfig.token := "t1"; GitHubConfig.username := "u1" |}
                           (world_answering (respond 200 _))))
             (VObj [("success", VBool true); ("message", VStr "GitHub configured");
                    ("user", VStr "u1"); ("username", VStr "u1")])).
  - reflexivity.
  - constructor; reflexivity.
Defined.

(* ===================================================================== *)
(** ** quickExtract *)
(* ===================================================================== *)

(** The declaration of [quickExtract] is refused: [private] is one of
    the words class code reserves. *)
Lemma quickExtract_early_error :
  early_error ["repoName"; "description"; "private"]
  = Some (JsError "SyntaxError" "Unexpected strict mode reserved word").
Proof. reflexivity. Qed.

(** With the parameter under another name, the statements of
    [quickExtract] build the documented request and hand it on. *)
Lemma quickExtract_body_builds this repoName description isPrivate w :
  quickExtract_body this repoName description isPrivate w =
  extractAndPush this (quick_request (clock w) repoName description isPrivate) w.
Proof.
  unfold quickExtract_body, bind, now_iso, ret.
  destruct description as [[| ch rest] |]; reflexivity.
Qed.

Lemma quick_request_description now repoName description private :
  GitHubExtractRequest.description
    (quick_request now repoName description private) <> EmptyString.
Proof.
  destruct description as [[| ch rest] |]; discriminate.
Qed.

(** C4.  The code does not do what the claim says.  The statements of
    [quickExtract], given a name and nothing else, would hand
    [extractAndPush] the request with source directory [./generated],
    the generated description, [private: false] and the two literal
    pattern lists.  But the method is declared with a parameter named
    [private]: the declaration is refused, so [quickExtract(name)]
    ends in a [SyntaxError], builds no request and leaves the world as
    it was. *)
Theorem quickExtract_rejected_as_declared
    (this : GitHubService) (repoName : string) (w : World) :
  let request :=
    {| GitHubExtractRequest.source_dir := "./generated";
       GitHubExtractRequest.repo_name := repoName;
       GitHubExtractRequest.description :=
         "AI-generated code from Cube AI System - " ++ toISOString (clock w);
       GitHubExtractRequest.private := false;
       GitHubExtractRequest.include_patterns :=
         Some ["*.py"; "*.js"; "*.ts"; "*.tsx"; "*.jsx"; "*.html"; "*.css";
               "*.json"; "*.md"; "*.txt"];
       GitHubExtractRequest.exclude_patterns :=
         Some ["__pycache__"; "*.log"; "*.tmp"; ".DS_Store"; "node_modules"; ".git"] |} in
  result (quickExtract this repoName None None w)
  = Throw (JsError "SyntaxError" "Unexpected strict mode reserved word")
  /\ after (quickExtract this repoName None None w) = w
  /\ quickExtract_body this repoName None None w = extractAndPush this request w
  /\ sent (after (extractAndPush this request w))
     = (sent w ++ [post (baseUrl this ++ "/extract-and-push")
                     (GitHubExtractRequest.to_value request)])%list.
Proof.
  cbv zeta. split; [reflexivity |]. split; [reflexivity |].
  split; [apply (quickExtract_body_builds this repoName None None w) |].
  unfold after.
  match goal with
  | |- context [extractAndPush this ?q w] =>
      change (extractAndPush this q w) with (run this (ExtractAndPush q) w)
  end.
  rewrite run_settles. cbv zeta.
  destruct (settle _ _); reflexivity.
Qed.

Example quickExtract_r1 :
  quickExtract githubService "r1" None None
    (world_answering (respond 200 (VObj [("success", VBool true)])))
  = (Throw (JsError "SyntaxError" "Unexpected strict mode reserved word"),
     world_answering (respond 200 (VObj [("success", VBool true)]))).
Proof. reflexivity. Qed.

Example quickExtract_r1_description :
  GitHubExtractRequest.description (quick_request 1700000000000 "r1" None None)
  = "AI-generated code from Cube AI System - 2023-11-14T22:13:20.000Z".
Proof. reflexivity. Qed.

(** C10.  The code does not do what the claim says.  The statements
    of [quickExtract] treat an empty description as none: given [''] or
    nothing, in the same world, they run [extractAndPush] on the same
    request, the one with the generated description, which is not
    empty.  But the method is declared with a parameter named
    [private]: [quickExtract(name, '', p)] and
    [quickExtract(name, undefined, p)] both end in a [SyntaxError] and
    build no request at all. *)
Theorem quickExtract_empty_description_never_built
    (this : GitHubService) (repoName : string) (private : option bool) (w : World) :
  let request :=
    {| GitHubExtractRequest.source_dir := "./generated";
       GitHubExtractRequest.repo_name := repoName;
       GitHubExtractRequest.description := generated_description w;
       GitHubExtractRequest.private :=
         match private with Some p => p | None => false end;
       GitHubExtractRequest.include_patterns := Some default_include_patterns;
       GitHubExtractRequest.exclude_patterns := Some default_exclude_patterns |} in
  quickExtract this repoName (Some EmptyString) private w
  = (Throw (JsError "SyntaxError" "Unexpected strict mode reserved word"), w)
  /\ quickExtract this repoName None private w
     = (Throw (JsError "SyntaxError" "Unexpected strict mode reserved word"), w)
  /\ quickExtract_body this repoName (Some EmptyString) private w
     = extractAndPush this request w
  /\ quickExtract_body this repoName None private w = extractAndPush this request w
  /\ GitHubExtractRequest.description request <> EmptyString.
Proof.
  cbv zeta. repeat split. discriminate.
Qed.

(** A description that is given and not empty is kept. *)
Example quickExtract_keeps_description :
  GitHubExtractRequest.description (quick_request 0 "r1" (Some "first import") None)
  = "first import".
Proof. reflexivity. Qed.

(* ===================================================================== *)
(** ** validateToken *)
(* ===================================================================== *)

(** C5.  [validateToken(token)] sends the request of a [configure]
    call for the credentials [{token, username: "test"}] and returns a
    boolean, which is [true] exactly when a response arrived with a
    status in 200-299.  The body of the response plays no part. *)
Theorem validateToken_probes_configure
    (this : GitHubService) (token : string) (w : World) :
  let req :=
    endpoint this
      (Configure {| GitHubConfig.token := token; GitHubConfig.username := "test" |}) w in
  req_method req = POST
  /\ req_url req = baseUrl this ++ "/configure"
  /\ req_body req
     = JSON_stringify (VObj [("token", VStr token); ("username", VStr "test")])
  /\ sent (after (validateToken this token w)) = (sent w ++ [req])%list
  /\ exists b,
       result (validateToken this token w) = Return (VBool b)
       /\ (b = true <->
           exists r, answer w req = Resolved r
                     /\ 200 <= resp_status r <= 299).
Proof.
  cbv zeta. unfold result, after. rewrite validateToken_run. cbv zeta.
  repeat split.
  eexists. split; [reflexivity |].
  change (make_request _ _)
    with (endpoint this
            (Configure {| GitHubConfig.token := token; GitHubConfig.username := "test" |}) w).
  destruct (answer w _) as [e | r].
  - split; [discriminate | intros (r & H & _); discriminate].
  - unfold resp_ok. rewrite andb_true_iff, !Z.leb_le. split.
    + intros H. exists r. split; [reflexivity | lia].
    + intros (r' & H & Hr). injection H as ->. lia.
Qed.

(** C9.  [validateToken] never raises and never reads the body.  A
    rejected [fetch] gives [false].  A 2xx response whose body is not
    JSON gives [true], while [configure], sent the same credentials and
    given the same response, raises the parse error. *)
Theorem validateToken_ignores_body
    (this : GitHubService) (token : string) (w : World) :
  let config := {| GitHubConfig.token := token; GitHubConfig.username := "test" |} in
  let req := endpoint this (Configure config) w in
  (exists b, result (validateToken this token w) = Return (VBool b))
  /\ (forall e,
        answer w req = Rejected e ->
        result (validateToken this token w) = Return (VBool false))
  /\ (forall r,
        answer w req = Resolved r ->
        result (validateToken this token w) = Return (VBool (resp_ok r)))
  /\ (forall r e,
        answer w req = Resolved r ->
        resp_ok r = true ->
        resp_body r = BodyReject e ->
        result (validateToken this token w) = Return (VBool true)
        /\ result (configure this config w) = Throw e).
Proof.
  cbv zeta. unfold result. rewrite validateToken_run. cbv zeta.
  change (make_request _ _)
    with (endpoint this
            (Configure {| GitHubConfig.token := token; GitHubConfig.username := "test" |}) w).
  split; [eexists; reflexivity |].
  split; [intros e H; now rewrite H |].
  split; [intros r H; now rewrite H |].
  intros r e H Hok Hbody. rewrite H, Hok. split; [reflexivity |].
  pose proof (run_settles this
                (Configure {| GitHubConfig.token := token;
                              GitHubConfig.username := "test" |}) w) as Hrun.
  cbn [run] in Hrun. rewrite Hrun. cbv zeta. rewrite H.
  cbn [settle]. now rewrite Hbody.
Qed.

Lemma validateToken_ignores_body_witness :
  let w := world_answering
             (Resolved {| resp_status := 200;
                          resp_body := BodyReject
                                         (JsError "SyntaxError" "Unexpected end of JSON input") |}) in
  result (validateToken githubService "t1" w) = Return (VBool true)
  /\ result (configure githubService
               {| GitHubConfig.token := "t1"; GitHubConfig.username := "test" |} w)
     = Throw (JsError "SyntaxError" "Unexpected end of JSON input").
Proof.
  cbv zeta.
  apply (proj2 (proj2 (proj2 (validateToken_ignores_body githubService "t1"
                                (world_answering _))))
           {| resp_status := 200;
              resp_body := BodyReject
                             (JsError "SyntaxError" "Unexpected end of JSON input") |});
    reflexivity.
Defined.

Example validateToken_offline :
  result (validateToken githubService "t1"
            (world_answering (Rejected (JsError "TypeError" "Failed to fetch"))))
  = Return (VBool false).
Proof. reflexivity. Qed.

(* ===================================================================== *)
(** ** deleteRepository *)
(* ===================================================================== *)

(** C6.  [deleteRepository(name)] hands exactly one request to
    [fetch]: a DELETE, without headers or body, to
    [http://localhost:8000/github/repositories/] followed by the name
    as given.  It opens no dialog: whatever the user would answer to a
    confirmation prompt, the request goes out. *)
Theorem deleteRepository_single_delete (repoName : string) (w : World) :
  let req :=
    {| req_url := "http://localhost:8000/github/repositories/" ++ repoName;
       req_method := DELETE;
       req_headers := [];
       req_body := None |} in
  sent (after (deleteRepository githubService repoName w)) = (sent w ++ [req])%list
  /\ dialogs (after (deleteRepository githubService repoName w)) = dialogs w.
Proof.
  cbv zeta. unfold after.
  change (deleteRepository githubService repoName w)
    with (run githubService (DeleteRepository repoName) w).
  rewrite run_settles. cbv zeta.
  destruct (settle _ _); split; reflexivity.
Qed.

(** The name goes into the path as it is. *)
Example deleteRepository_unescaped_name :
  map req_url
    (sent (after (deleteRepository githubService "a b/../c?x=1#y"
                    (world_answering (respond 200 (VObj [("success", VBool true)]))))))
  = ["http://localhost:8000/github/repositories/a b/../c?x=1#y"].
Proof. reflexivity. Qed.

(** The confirmation lives in the panel: when the user declines there,
    nothing is sent. *)
Lemma handleDeleteRepository_declined repoName p :
  confirm_answer (world p)
    ("Are you sure you want to delete the repository " ++ dquote ++ repoName
     ++ dquote ++ "? This action cannot be undone.") = false ->
  sent (world (after (handleDeleteRepository repoName p))) = sent (world p)
  /\ ops (after (handleDeleteRepository repoName p)) = ops p.
Proof.
  intros H. unfold handleDeleteRepository, bind, call, confirm, after.
  cbv beta iota. cbn [world fst snd]. rewrite H. split; reflexivity.
Qed.

(* ===================================================================== *)
(** ** listRepositories and its caller *)
(* ===================================================================== *)

Lemma listRepositories_success w data :
  ok_json (answer w repositories_request) data ->
  listRepositories githubService w = (Return data, log_request repositories_request w).
Proof.
  intros H.
  change (listRepositories githubService w)
    with (run githubService ListRepositories w).
  rewrite run_settles. cbv zeta.
  change (endpoint githubService ListRepositories w) with repositories_request.
  now rewrite (settle_success _ _ _ H).
Qed.

(** C7.  When the backend answers the listing with a 2xx response whose
    body has no [repositories] property, [listRepositories] returns
    that body, and [loadRepositories] finishes normally with the
    repository list it had before (the empty list, if it was never
    loaded) and the loading flag down.  Unless the body is [null], no
    error is shown either. *)
Theorem loadRepositories_without_repositories (p : Page) (data : value) :
  ok_json (answer (world p) repositories_request) data ->
  lacks data "repositories" ->
  result (listRepositories githubService (world p)) = Return data
  /\ result (loadRepositories p) = Return tt
  /\ repositories (ops (after (loadRepositories p))) = repositories (ops p)
  /\ (ops p = initial_ops ->
      repositories (ops (after (loadRepositories p))) = VArr [])
  /\ loading (ops (after (loadRepositories p))) = false
  /\ (data <> VNull -> data <> VUndefined ->
      error (ops (after (loadRepositories p))) = error (ops p)
      /\ console (world (after (loadRepositories p))) = console (world p)).
Proof.
  intros Hok Hlacks.
  assert (Hload :
    result (loadRepositories p) = Return tt
    /\ repositories (ops (after (loadRepositories p))) = repositories (ops p)
    /\ loading (ops (after (loadRepositories p))) = false
    /\ (data <> VNull -> data <> VUndefined ->
        error (ops (after (loadRepositories p))) = error (ops p)
        /\ console (world (after (loadRepositories p))) = console (world p))).
  { unfold loadRepositories, try_finally, try_catch, bind, call, setLoading,
      set_ops, result, after.
    cbn [world ops].
    rewrite (listRepositories_success _ _ Hok).
    destruct data as [| | b | n | s | items | fields]; cbn;
      try (repeat split; (reflexivity || (intros; congruence))).
    cbn in Hlacks. rewrite Hlacks.
    destruct (lookup "success" fields) as [v |]; cbn -[truthy];
      [destruct (truthy v) eqn:Hv; cbn -[truthy]; rewrite ?Hv; cbn |];
      repeat split; reflexivity. }
  destruct Hload as (H1 & H2 & H3 & H4).
  split; [unfold result; now rewrite (listRepositories_success _ _ Hok) |].
  repeat split; try assumption.
  - intros Hinit. rewrite H2, Hinit. reflexivity.
  - now apply H4.
  - now apply H4.
Qed.

Lemma loadRepositories_without_repositories_witness :
  let p := {| world := world_answering (respond 200 (VObj [("success", VBool true)]));
              ops := initial_ops |} in
  repositories (ops (after (loadRepositories p))) = VArr [].
Proof.
  cbv zeta.
  refine (proj1 (proj2 (proj2 (proj2
            (loadRepositories_without_repositories
               {| world := world_answering (respond 200 (VObj [("success", VBool true)]));
                  ops := initial_ops |}
               (VObj [("success", VBool true)]) _ _)))) _).
  - apply (ok_json_2xx
             {| resp_status := 200;
                resp_body := BodyJson (VObj [("success", VBool true)]) |});
      reflexivity.
  - reflexivity.
  - reflexivity.
Defined.

(** A [null] body: reading [success] from it fails inside the loader,
    which reports the failure and keeps its list. *)
Example loadRepositories_null_body :
  let p := {| world := world_answering (respond 200 VNull); ops := initial_ops |} in
  result (loadRepositories p) = Return tt
  /\ ops (after (loadRepositories p))
     = {| repositories := VArr []; loading := false;
          error := VStr "Failed to load repositories"; success := VNull |}.
Proof. split; reflexivity. Qed.

(** A listing that does carry the property replaces the list. *)
Example loadRepositories_with_repositories :
  let listing := VArr [VObj [("name", VStr "r1")]] in
  let p := {| world := world_answering
                         (respond 200 (VObj [("success", VBool true);
                                             ("repositories", listing)]));
              ops := initial_ops |} in
  repositories (ops (after (loadRepositories p))) = listing.
Proof. reflexivity. Qed.

(* ===================================================================== *)
(** ** Two status queries in a row *)
(* ===================================================================== *)

(** C8.  Two [getStatus] calls in sequence, with nothing between them,
    against a backend that answers the second status request as it
    answered the first, give the same result, hence the same
    [configured].  The service object is the same before and after:
    a call changes nothing but the logs of the world. *)
Theorem getStatus_idempotent (this : GitHubService) (w : World) :
  let first := getStatus this w in
  let second := getStatus this (after first) in
  answer (after first) (status_request this) = answer w (status_request this) ->
  result second = result first
  /\ configured_of (result second) = configured_of (result first).
Proof.
  cbv zeta. intros H.
  assert (Heq : result (getStatus this (after (getStatus this w)))
                = result (getStatus this w)).
  { unfold result at 1. rewrite getStatus_run. cbv zeta.
    change (make_request (baseUrl this ++ "/status") None) with (status_request this).
    rewrite H.
    unfold result. rewrite (getStatus_run this w). cbv zeta.
    change (make_request (baseUrl this ++ "/status") None) with (status_request this).
    destruct (settle _ _); reflexivity. }
  split; [exact Heq | now rewrite Heq].
Qed.

Lemma getStatus_idempotent_witness :
  let w := world_answering
             (respond 200 (VObj [("configured", VBool true);
                                 ("username", VStr "u1"); ("user", VStr "u1")])) in
  configured_of (result (getStatus githubService (after (getStatus githubService w))))
  = Return (VBool true)
  /\ configured_of (result (getStatus githubService w)) = Return (VBool true).
Proof.
  cbv zeta.
  rewrite (proj2 (getStatus_idempotent githubService (world_answering _) eq_refl)).
  split; reflexivity.
Defined.

(** Without that assumption the two results can differ: here the
    backend reports the integration as configured only from the second
    status request on. *)
Example getStatus_changing_backend :
  let w := {| sent := []; console := []; dialogs := [];
              backend := fun earlier _ =>
                           respond 200 (VObj [("configured",
                                               VBool (negb (Nat.eqb (List.length earlier) 0)))]);
              confirm_answer := fun _ => true;
              clock := 0 |} in
  configured_of (result (getStatus githubService w)) = Return (VBool false)
  /\ configured_of (result (getStatus githubService (after (getStatus githubService w))))
     = Return (VBool true).
Proof. split; reflexivity. Qed.

(* ===================================================================== *)
(** ** More on the service: requests, console, messages *)
(* ===================================================================== *)

(** X1.  Each of the seven re-raising methods is fire-once: it hands
    [fetch] exactly one request, the one the interface table gives for
    it, whatever the answer, and it opens no dialog. *)
Theorem calls_fire_once (this : GitHubService) (c : Call) (w : World) :
  sent (after (run this c w)) = (sent w ++ [endpoint this c w])%list
  /\ dialogs (after (run this c w)) = dialogs w.
Proof.
  unfold after. rewrite run_settles. cbv zeta.
  destruct (settle _ _); cbn; auto.
Qed.

(** X2.  A 2xx answer is never turned into an exception: the parsed
    body comes back as it is, also when it says [success: false], and
    nothing is written to the console. *)
Theorem logical_failure_is_returned
    (this : GitHubService) (c : Call) (w : World) (data : value) :
  ok_json (answer w (endpoint this c w)) data ->
  run this c w = (Return data, log_request (endpoint this c w) w).
Proof.
  intros H. rewrite run_settles. cbv zeta.
  now rewrite (settle_success _ _ _ H).
Qed.

Lemma logical_failure_is_returned_witness :
  let refused := VObj [("success", VBool false); ("error", VStr "name already exists")] in
  result (run githubService
            (CreateRepository
               {| GitHubRepository.name := "r1";
                  GitHubRepository.description := EmptyString;
                  GitHubRepository.private := false;
                  GitHubRepository.auto_init := None;
                  GitHubRepository.gitignore_template := None |})
            (world_answering (respond 200 refused)))
  = Return refused.
Proof.
  cbv zeta. unfold result.
  rewrite (logical_failure_is_returned githubService _ (world_answering _)
             (VObj [("success", VBool false); ("error", VStr "name already exists")])).
  - reflexivity.
  - apply (ok_json_2xx {| resp_status := 200; resp_body := BodyJson _ |}); reflexivity.
Defined.

(** X3.  What a call raises is what it logs: the console gains one
    line, the call's label with the exception, exactly when the call
    raises, and that exception is the one raised. *)
Theorem raised_error_is_logged (this : GitHubService) (c : Call) (w : World) :
  console (after (run this c w))
  = match result (run this c w) with
    | Throw e => (console w ++ [(label c, e)])%list
    | Return _ => console w
    end.
Proof.
  unfold after, result. rewrite run_settles. cbv zeta.
  destruct (settle _ _); reflexivity.
Qed.

(** X4.  A [detail] that is there but falsy counts as none: on a
    non-2xx answer with a JSON body other than [null], a [detail] that
    is absent, empty, zero, [false] or [null] makes the call raise an
    [Error] with its fallback message. *)
Theorem falsy_detail_gives_fallback
    (this : GitHubService) (c : Call) (w : World)
    (r : Response) (data detail : value) :
  answer w (endpoint this c w) = Resolved r ->
  resp_ok r = false ->
  resp_body r = BodyJson data ->
  get data "detail" = Return detail ->
  truthy detail = false ->
  result (run this c w) = Throw (JsError "Error" (fallback c)).
Proof.
  intros Hans Hok Hbody Hget Hfalsy.
  unfold result. rewrite run_settles. cbv zeta.
  rewrite Hans. cbn [settle]. rewrite Hbody, Hok, Hget.
  unfold js_or. rewrite Hfalsy. reflexivity.
Qed.

Lemma falsy_detail_gives_fallback_witness :
  result (run githubService (GetRepository "r1")
            (world_answering (respond 500 (VObj [("detail", VNum 0)]))))
  = Throw (JsError "Error" "Failed to get repository").
Proof.
  apply (falsy_detail_gives_fallback githubService (GetRepository "r1")
           (world_answering _)
           {| resp_status := 500; resp_body := BodyJson (VObj [("detail", VNum 0)]) |}
           (VObj [("detail", VNum 0)]) (VNum 0));
    reflexivity.
Defined.

(** X5.  A non-2xx answer whose body is the JSON value [null] does not
    get the fallback message: reading [detail] from it fails, and the
    call raises that [TypeError]. *)
Theorem null_body_raises_type_error
    (this : GitHubService) (c : Call) (w : World) (r : Response) :
  answer w (endpoint this c w) = Resolved r ->
  resp_ok r = false ->
  resp_body r = BodyJson VNull ->
  exists message,
    result (run this c w) = Throw (JsError "TypeError" message)
    /\ message <> fallback c.
Proof.
  intros Hans Hok Hbody.
  unfold result. rewrite run_settles. cbv zeta.
  rewrite Hans. cbn [settle]. rewrite Hbody, Hok. cbn.
  eexists. split; [reflexivity |].
  destruct c; discriminate.
Qed.

Lemma null_body_raises_type_error_witness :
  exists message,
    result (run githubService ListRepositories (world_answering (respond 502 VNull)))
    = Throw (JsError "TypeError" message).
Proof.
  destruct (null_body_raises_type_error githubService ListRepositories
              (world_answering (respond 502 VNull))
              {| resp_status := 502; resp_body := BodyJson VNull |}
              eq_refl eq_refl eq_refl) as (message & H & _).
  exists message. exact H.
Defined.

(** X6.  [getStatus] swallows failures but not silently: the console
    is left alone exactly when the backend answered 2xx with a JSON
    body; every failure adds one line labelled [GitHub status error:]. *)
Theorem getStatus_logs_failures (this : GitHubService) (w : World) :
  let o := answer w (status_request this) in
  (forall data, ok_json o data -> console (after (getStatus this w)) = console w)
  /\ ((forall data, ~ ok_json o data) ->
      exists e,
        console (after (getStatus this w))
        = (console w ++ [("GitHub status error:", e)])%list).
Proof.
  cbv zeta. unfold after. rewrite getStatus_run. cbv zeta.
  change (make_request (baseUrl this ++ "/status") None) with (status_request this).
  split.
  - intros data H. now rewrite (settle_success _ _ _ H).
  - intros Hno.
    destruct (settle_cases "Failed to get GitHub status"
                (answer w (status_request this)))
      as [(data & Hok & _) | (e & He & _)].
    + destruct (Hno data Hok).
    + rewrite He. exists e. reflexivity.
Qed.

Lemma getStatus_logs_failures_witness :
  console (after (getStatus githubService
                    (world_answering (respond 200 (VObj [("configured", VBool true)])))))
  = [].
Proof.
  apply (proj1 (getStatus_logs_failures githubService (world_answering _))
           (VObj [("configured", VBool true)])).
  apply (ok_json_2xx {| resp_status := 200; resp_body := BodyJson _ |}); reflexivity.
Defined.

(* ===================================================================== *)
(** ** The repository panel *)
(* ===================================================================== *)

Lemma replace_all_occurs x y s : x <> y -> occurs x (replace_all x y s) = false.
Proof.
  intros Hxy. induction s as [| a rest IH]; cbn; [reflexivity |].
  rewrite IH, orb_false_r.
  destruct (Ascii.eqb a x) eqn:Ha.
  - apply Ascii.eqb_neq. congruence.
  - exact Ha.
Qed.

Lemma replace_all_length x y s :
  String.length (replace_all x y s) = String.length s.
Proof.
  induction s as [| a rest IH]; cbn; [reflexivity | now rewrite IH].
Qed.

Lemma slice_to_length n s : (String.length (slice_to n s) <= n)%nat.
Proof.
  unfold slice_to. revert s.
  induction n as [| n IH]; intros [| a rest]; cbn; try lia.
  specialize (IH rest). lia.
Qed.

(** X8.  [handleQuickExtract] only fills the form; it sends nothing.
    The repository name it proposes is [ai-generated-] followed by at
    most 19 characters of the time stamp with every colon replaced, so
    no colon is left in it; the description is the generated one. *)
Theorem handleQuickExtract_fills_form (s : Panel) :
  let s' := after (handleQuickExtract s) in
  result (handleQuickExtract s) = Return tt
  /\ page s' = page s
  /\ (exists stem,
        Form.extractRepoName (form s') = "ai-generated-" ++ stem
        /\ occurs ":" stem = false
        /\ (String.length stem <= 19)%nat)
  /\ Form.extractDescription (form s') = generated_description (world (page s))
  /\ Form.repoName (form s') = Form.repoName (form s)
  /\ Form.repoDescription (form s') = Form.repoDescription (form s)
  /\ Form.isPrivate (form s') = Form.isPrivate (form s)
  /\ Form.sourceDir (form s') = Form.sourceDir (form s)
  /\ Form.extractPrivate (form s') = Form.extractPrivate (form s).
Proof.
  cbv zeta. destruct s as [[w o] f].
  repeat split.
  exists (replace_all ":" "-" (slice_to 19 (toISOString (clock w)))).
  split; [reflexivity |]. split.
  - apply replace_all_occurs. discriminate.
  - rewrite replace_all_length. apply slice_to_length.
Qed.

(** Take [loadRepositories] apart along the answer to its request. *)
Ltac loader_cases p :=
  unfold loadRepositories, try_finally, try_catch, bind, call, setLoading,
    set_ops, result, after;
  cbn [world ops];
  change (listRepositories githubService (world p))
    with (run githubService ListRepositories (world p));
  rewrite run_settles; cbv zeta;
  change (endpoint githubService ListRepositories (world p)) with repositories_request;
  destruct (settle _ _) as [[| | ? | ? | ? | ? | fields] | ?]; cbn -[truthy];
  try (destruct (lookup "success" fields) as [v |]; cbn -[truthy];
       [destruct (truthy v) eqn:Hv; cbn -[truthy]; rewrite ?Hv; cbn -[truthy];
        try (destruct (lookup "repositories" fields) as [l |]; cbn -[truthy];
             [destruct (truthy l) eqn:Hl; cbn -[truthy]; rewrite ?Hl; cbn -[truthy] |]) |]).

Lemma loadRepositories_total p :
  result (loadRepositories p) = Return tt
  /\ loading (ops (after (loadRepositories p))) = false
  /\ success (ops (after (loadRepositories p))) = success (ops p)
  /\ sent (world (after (loadRepositories p)))
     = (sent (world p) ++ [repositories_request])%list
  /\ dialogs (world (after (loadRepositories p))) = dialogs (world p).
Proof.
  loader_cases p; repeat split; reflexivity.
Qed.

Lemma settle_return fb o data : settle fb o = Return data -> ok_json o data.
Proof.
  intros H.
  destruct (settle_cases fb o) as [(d & Hok & Hd) | (e & He & _)]; congruence.
Qed.

Lemma settle_throw fb o e : settle fb o = Throw e -> forall data, ~ ok_json o data.
Proof.
  intros H.
  destruct (settle_cases fb o) as [(d & Hok & Hd) | (e' & He & Hno)];
    [congruence | exact Hno].
Qed.

(** X9.  [loadRepositories] never raises and always lowers the loading
    flag.  It replaces the list only by the [repositories] value of a
    2xx answer in which both [success] and [repositories] are truthy;
    in every other case the list stays as it was. *)
Theorem loadRepositories_replaces_only_on_success (p : Page) :
  let p' := after (loadRepositories p) in
  result (loadRepositories p) = Return tt
  /\ loading (ops p') = false
  /\ (repositories (ops p') = repositories (ops p)
      \/ exists data l,
           ok_json (answer (world p) repositories_request) data
           /\ truthy_at data "success"
           /\ get data "repositories" = Return l
           /\ truthy l = true
           /\ repositories (ops p') = l).
Proof.
  cbv zeta.
  split; [apply loadRepositories_total |].
  split; [apply loadRepositories_total |].
  unfold loadRepositories, try_finally, try_catch, bind, call, setLoading,
    set_ops, after.
  cbn [world ops].
  change (listRepositories githubService (world p))
    with (run githubService ListRepositories (world p)).
  rewrite run_settles. cbv zeta.
  change (endpoint githubService ListRepositories (world p)) with repositories_request.
  destruct (settle _ _) as [data | e] eqn:Hs; [| left; reflexivity].
  apply settle_return in Hs.
  destruct data as [| | ? | ? | ? | ? | fields]; try (left; reflexivity).
  cbn -[truthy].
  destruct (lookup "success" fields) as [v |] eqn:Hsucc; cbn -[truthy];
    [| left; reflexivity].
  destruct (truthy v) eqn:Hv; cbn -[truthy]; rewrite ?Hv; [| left; reflexivity].
  destruct (lookup "repositories" fields) as [l |] eqn:Hrepo; cbn -[truthy];
    [| left; reflexivity].
  destruct (truthy l) eqn:Hl; cbn -[truthy]; [| left; reflexivity].
  right. exists (VObj fields), l.
  split; [exact Hs |].
  split; [exists v; cbn; now rewrite Hsucc |].
  split; [cbn; now rewrite Hrepo |].
  split; [exact Hl | reflexivity].
Qed.

(** X10.  When the listing fails, the panel does not say why: whatever
    the exception, the error shown is the fixed text
    [Failed to load repositories]; the list is kept, and the exception
    goes to the console twice, once from the service and once from the
    panel. *)
Theorem loadRepositories_hides_cause (p : Page) (e : thrown) :
  result (listRepositories githubService (world p)) = Throw e ->
  let p' := after (loadRepositories p) in
  error (ops p') = VStr "Failed to load repositories"
  /\ repositories (ops p') = repositories (ops p)
  /\ console (world p')
     = (console (world p) ++ [("List repositories error:", e);
                              ("Failed to load repositories:", e)])%list.
Proof.
  intros H. cbv zeta. revert H.
  unfold loadRepositories, try_finally, try_catch, bind, call, setLoading,
    set_ops, after, result.
  cbn [world ops].
  change (listRepositories githubService (world p))
    with (run githubService ListRepositories (world p)).
  rewrite run_settles. cbv zeta.
  destruct (settle _ _) as [data | e']; cbn; [discriminate |].
  intros [= ->]. rewrite <- app_assoc. repeat split.
Qed.

Lemma loadRepositories_hides_cause_witness :
  let p := {| world := world_answering
                         (respond 403 (VObj [("detail", VStr "Token lacks the repo scope")]));
              ops := initial_ops |} in
  error (ops (after (loadRepositories p))) = VStr "Failed to load repositories".
Proof.
  cbv zeta.
  apply (loadRepositories_hides_cause
           {| world := world_answering
                         (respond 403 (VObj [("detail", VStr "Token lacks the repo scope")]));
              ops := initial_ops |}
           (JsError "Error" "Token lacks the repo scope")).
  reflexivity.
Defined.

Lemma createRepository_run repo w :
  createRepository githubService repo w =
  let req := endpoint githubService (CreateRepository repo) w in
  match settle "Failed to create repository" (answer w req) with
  | Return data => (Return data, log_request req w)
  | Throw e => (Throw e, log_console "Create repository error:" e (log_request req w))
  end.
Proof. exact (run_settles githubService (CreateRepository repo) w). Qed.

(** X11.  The create form is guarded: when the name is empty or only
    white space, [handleCreateRepository] sends nothing and shows
    [Please provide a repository name]; the form, the list, the
    loading flag and the success message stay as they were. *)
Theorem handleCreateRepository_blank_name (s : Panel) :
  trim (Form.repoName (form s)) = EmptyString ->
  let s' := after (handleCreateRepository s) in
  result (handleCreateRepository s) = Return tt
  /\ world (page s') = world (page s)
  /\ form s' = form s
  /\ error (ops (page s')) = VStr "Please provide a repository name"
  /\ repositories (ops (page s')) = repositories (ops (page s))
  /\ loading (ops (page s')) = loading (ops (page s))
  /\ success (ops (page s')) = success (ops (page s)).
Proof.
  intros H. cbv zeta.
  unfold handleCreateRepository, bind, rendered_form, result, after.
  cbn [fst snd]. rewrite H. cbn. repeat split.
Qed.

Lemma handleCreateRepository_blank_name_witness :
  let s := {| page := {| world := world_answering (respond 200 VNull);
                         ops := initial_ops |};
              form := {| Form.repoName := "   ";
                         Form.repoDescription := "a project";
                         Form.isPrivate := false;
                         Form.sourceDir := "./generated";
                         Form.extractRepoName := EmptyString;
                         Form.extractDescription := EmptyString;
                         Form.extractPrivate := false |} |} in
  sent (world (page (after (handleCreateRepository s)))) = [].
Proof.
  cbv zeta.
  rewrite (proj1 (proj2 (handleCreateRepository_blank_name
                           {| page := {| world := world_answering (respond 200 VNull);
                                         ops := initial_ops |};
                              form := {| Form.repoName := "   ";
                                         Form.repoDescription := "a project";
                                         Form.isPrivate := false;
                                         Form.sourceDir := "./generated";
                                         Form.extractRepoName := EmptyString;
                                         Form.extractDescription := EmptyString;
                                         Form.extractPrivate := false |} |}
                           eq_refl))).
  reflexivity.
Defined.

(** Open a handler of the panel up to its service call. *)
Ltac panel_steps :=
  unfold try_finally, try_catch, bind, on_page, call, rendered_form,
    setLoading, setError, setSuccess, set_ops, set_form, step, ret,
    setRepoName, setRepoDescription, setIsPrivate,
    setExtractRepoName, setExtractDescription, setExtractPrivate,
    console_error, now_iso, result, after;
  cbn [fst snd page form world ops].

(** X12.  A creation the backend accepts (2xx, truthy [success]) is
    followed by a reload: two requests go out, the POST for the
    repository the form describes and then the GET of the listing.
    The success message names the repository, the create form is
    cleared, the extract form is not touched, and the loading flag is
    down at the end. *)
Theorem handleCreateRepository_success (s : Panel) (data : value) :
  let w := world (page s) in
  let req := endpoint githubService (CreateRepository (form_repository (form s))) w in
  trim (Form.repoName (form s)) <> EmptyString ->
  ok_json (answer w req) data ->
  truthy_at data "success" ->
  let s' := after (handleCreateRepository s) in
  result (handleCreateRepository s) = Return tt
  /\ sent (world (page s')) = (sent w ++ [req; repositories_request])%list
  /\ success (ops (page s'))
     = VStr ("Repository " ++ dquote ++ Form.repoName (form s) ++ dquote
             ++ " created successfully!")
  /\ form s' = create_form_cleared (form s)
  /\ loading (ops (page s')) = false.
Proof.
  cbv zeta. intros Hname Hok (v & Hget & Hv).
  unfold handleCreateRepository.
  panel_steps.
  rewrite (truthy_nonempty _ Hname). cbn [negb].
  panel_steps.
  change {| GitHubRepository.name := Form.repoName (form s);
            GitHubRepository.description := Form.repoDescription (form s);
            GitHubRepository.private := Form.isPrivate (form s);
            GitHubRepository.auto_init := None;
            GitHubRepository.gitignore_template := None |}
    with (form_repository (form s)).
  rewrite createRepository_run. cbv zeta.
  rewrite (settle_success _ _ _ Hok).
  cbn [fst snd page form world ops]. rewrite Hget, Hv.
  cbn [fst snd page form world ops].
  match goal with
  | |- context [loadRepositories ?p] =>
      pose proof (loadRepositories_total p) as (H1 & H2 & H3 & H4 & _);
      unfold result, after in H1, H2, H3, H4;
      destruct (loadRepositories p) as [res p'] eqn:Hload
  end.
  cbn [fst snd page form world ops] in *. subst res.
  cbn [fst snd page form world ops].
  repeat split.
  - rewrite H4. cbn. now rewrite <- app_assoc.
  - exact H3.
Qed.

Lemma handleCreateRepository_success_witness :
  let s := {| page := {| world := world_answering (respond 201 (VObj [("success", VBool true)]));
                         ops := initial_ops |};
              form := {| Form.repoName := "r1";
                         Form.repoDescription := "a project";
                         Form.isPrivate := true;
                         Form.sourceDir := "./generated";
                         Form.extractRepoName := EmptyString;
                         Form.extractDescription := EmptyString;
                         Form.extractPrivate := false |} |} in
  map req_method (sent (world (page (after (handleCreateRepository s))))) = [POST; GET].
Proof.
  cbv zeta.
  rewrite (proj1 (proj2 (handleCreateRepository_success
             {| page := {| world := world_answering
                                      (respond 201 (VObj [("success", VBool true)]));
                           ops := initial_ops |};
                form := {| Form.repoName := "r1";
                           Form.repoDescription := "a project";
                           Form.isPrivate := true;
                           Form.sourceDir := "./generated";
                           Form.extractRepoName := EmptyString;
                           Form.extractDescription := EmptyString;
                           Form.extractPrivate := false |} |}
             (VObj [("success", VBool true)])
             ltac:(discriminate)
             (ok_json_2xx {| resp_status := 201;
                             resp_body := BodyJson (VObj [("success", VBool true)]) |}
                _ eq_refl eq_refl)
             (ex_intro _ (VBool true) (conj eq_refl eq_refl))))).
  reflexivity.
Defined.

(** Start a guarded handler of the create form past its guard. *)
Ltac create_steps s Hname :=
  unfold handleCreateRepository;
  panel_steps;
  rewrite (truthy_nonempty _ Hname); cbn [negb];
  panel_steps;
  change {| GitHubRepository.name := Form.repoName (form s);
            GitHubRepository.description := Form.repoDescription (form s);
            GitHubRepository.private := Form.isPrivate (form s);
            GitHubRepository.auto_init := None;
            GitHubRepository.gitignore_template := None |}
    with (form_repository (form s));
  rewrite createRepository_run; cbv zeta.

(** X13.  When [createRepository] raises, the panel shows the message
    of the exception (the backend's [detail], when that is what was
    raised) and sends nothing more: no reload.  The
    form keeps what the user typed and the list is not touched. *)
Theorem handleCreateRepository_shows_failure (s : Panel) (name message : string) :
  let w := world (page s) in
  let req := endpoint githubService (CreateRepository (form_repository (form s))) w in
  trim (Form.repoName (form s)) <> EmptyString ->
  result (createRepository githubService (form_repository (form s)) w)
  = Throw (JsError name message) ->
  let s' := after (handleCreateRepository s) in
  result (handleCreateRepository s) = Return tt
  /\ error (ops (page s')) = VStr message
  /\ success (ops (page s')) = VNull
  /\ sent (world (page s')) = (sent w ++ [req])%list
  /\ form s' = form s
  /\ repositories (ops (page s')) = repositories (ops (page s))
  /\ loading (ops (page s')) = false.
Proof.
  cbv zeta. intros Hname. unfold result at 1. rewrite createRepository_run. cbv zeta.
  intros Hthrow.
  create_steps s Hname.
  destruct (settle _ _) as [data | e]; cbn [fst] in Hthrow; [discriminate |].
  injection Hthrow as ->.
  cbn. repeat split.
Qed.

Lemma handleCreateRepository_shows_failure_witness :
  let s := {| page := {| world := world_answering
                                    (respond 422 (VObj [("detail", VStr "name already exists")]));
                         ops := initial_ops |};
              form := {| Form.repoName := "r1";
                         Form.repoDescription := EmptyString;
                         Form.isPrivate := false;
                         Form.sourceDir := "./generated";
                         Form.extractRepoName := EmptyString;
                         Form.extractDescription := EmptyString;
                         Form.extractPrivate := false |} |} in
  error (ops (page (after (handleCreateRepository s)))) = VStr "name already exists".
Proof.
  cbv zeta.
  apply (handleCreateRepository_shows_failure
           {| page := {| world := world_answering
                                    (respond 422 (VObj [("detail", VStr "name already exists")]));
                         ops := initial_ops |};
              form := {| Form.repoName := "r1";
                         Form.repoDescription := EmptyString;
                         Form.isPrivate := false;
                         Form.sourceDir := "./generated";
                         Form.extractRepoName := EmptyString;
                         Form.extractDescription := EmptyString;
                         Form.extractPrivate := false |} |}
           "Error" "name already exists").
  - discriminate.
  - reflexivity.
Defined.

(** X14.  A 2xx answer without a truthy [success] is a failure to the
    panel: it shows the answer's [error], or
    [Failed to create repository] when that is missing or falsy, keeps
    the form and does not reload. *)
Theorem handleCreateRepository_logical_failure (s : Panel) (data reason : value) :
  let w := world (page s) in
  let req := endpoint githubService (CreateRepository (form_repository (form s))) w in
  trim (Form.repoName (form s)) <> EmptyString ->
  ok_json (answer w req) data ->
  falsy_at data "success" ->
  get data "error" = Return reason ->
  let s' := after (handleCreateRepository s) in
  result (handleCreateRepository s) = Return tt
  /\ error (ops (page s'))
     = (if truthy reason then reason else VStr "Failed to create repository")
  /\ success (ops (page s')) = VNull
  /\ sent (world (page s')) = (sent w ++ [req])%list
  /\ form s' = form s
  /\ repositories (ops (page s')) = repositories (ops (page s))
  /\ loading (ops (page s')) = false.
Proof.
  cbv zeta. intros Hname Hok (v & Hget & Hv) Hreason.
  create_steps s Hname.
  rewrite (settle_success _ _ _ Hok).
  cbn [fst snd page form world ops]. rewrite Hget, Hv, Hreason.
  cbn. repeat split.
Qed.

Lemma handleCreateRepository_logical_failure_witness :
  let s := {| page := {| world := world_answering
                                    (respond 200 (VObj [("success", VBool false)]));
                         ops := initial_ops |};
              form := {| Form.repoName := "r1";
                         Form.repoDescription := EmptyString;
                         Form.isPrivate := false;
                         Form.sourceDir := "./generated";
                         Form.extractRepoName := EmptyString;
                         Form.extractDescription := EmptyString;
                         Form.extractPrivate := false |} |} in
  error (ops (page (after (handleCreateRepository s)))) = VStr "Failed to create repository".
Proof.
  cbv zeta.
  apply (proj1 (proj2 (handleCreateRepository_logical_failure
           {| page := {| world := world_answering
                                    (respond 200 (VObj [("success", VBool false)]));
                         ops := initial_ops |};
              form := {| Form.repoName := "r1";
                         Form.repoDescription := EmptyString;
                         Form.isPrivate := false;
                         Form.sourceDir := "./generated";
                         Form.extractRepoName := EmptyString;
                         Form.extractDescription := EmptyString;
                         Form.extractPrivate := false |} |}
           (VObj [("success", VBool false)]) VUndefined
           ltac:(discriminate)
           (ok_json_2xx {| resp_status := 200;
                           resp_body := BodyJson (VObj [("success", VBool false)]) |}
              _ eq_refl eq_refl)
           (ex_intro _ (VBool false) (conj eq_refl eq_refl))
           eq_refl))).
Defined.

Lemma extractAndPush_run request w :
  extractAndPush githubService request w =
  let req := endpoint githubService (ExtractAndPush request) w in
  match settle "Failed to extract and push" (answer w req) with
  | Return data => (Return data, log_request req w)
  | Throw e => (Throw e, log_console "Extract and push error:" e (log_request req w))
  end.
Proof. exact (run_settles githubService (ExtractAndPush request) w). Qed.

Lemma deleteRepository_run repoName w :
  deleteRepository githubService repoName w =
  let req := endpoint githubService (DeleteRepository repoName) w in
  match settle "Failed to delete repository" (answer w req) with
  | Return data => (Return data, log_request req w)
  | Throw e => (Throw e, log_console "Delete repository error:" e (log_request req w))
  end.
Proof. exact (run_settles githubService (DeleteRepository repoName) w). Qed.

(** Replace a trailing [loadRepositories] by what is known of it. *)
Ltac with_loader :=
  match goal with
  | |- context [loadRepositories ?p] =>
      let H1 := fresh "Hres" in
      let H2 := fresh "Hloading" in
      let H3 := fresh "Hsuccess" in
      let H4 := fresh "Hsent" in
      let H5 := fresh "Hdialogs" in
      pose proof (loadRepositories_total p) as (H1 & H2 & H3 & H4 & H5);
      unfold result, after in H1, H2, H3, H4, H5;
      let res := fresh "res" in
      let p' := fresh "p'" in
      destruct (loadRepositories p) as [res p'];
      cbn [fst snd page form world ops sent console dialogs log_request log_console
           repositories loading error success] in *;
      subst res
  end.

(** Follow a handler through every way its service call can end. *)
Ltac handler_cases :=
  destruct (settle _ _) as [data | ?]; cbn [fst snd page form world ops];
  [ destruct (get data "success") as [v | ?]; cbn [fst snd page form world ops];
    [ destruct (truthy v); cbn [fst snd page form world ops];
      [ with_loader
      | destruct (get data "error"); cbn [fst snd page form world ops] ]
    | ]
  | ].

Lemma extraction_body now f :
  JSON_stringify (GitHubExtractRequest.to_value (form_extraction now f))
  = Some ("{" ++ quote "source_dir" ++ ":" ++ quote (Form.sourceDir f)
          ++ "," ++ quote "repo_name" ++ ":" ++ quote (Form.extractRepoName f)
          ++ "," ++ quote "description" ++ ":"
          ++ quote (GitHubExtractRequest.description (form_extraction now f))
          ++ "," ++ quote "private" ++ ":"
          ++ (if Form.extractPrivate f then "true" else "false") ++ "}").
Proof.
  unfold GitHubExtractRequest.to_value, opt_value.
  cbn [JSON_stringify flat_map app join
       GitHubExtractRequest.source_dir GitHubExtractRequest.repo_name
       GitHubExtractRequest.description GitHubExtractRequest.private
       GitHubExtractRequest.include_patterns GitHubExtractRequest.exclude_patterns
       form_extraction].
  rewrite !append_assoc. reflexivity.
Qed.

(** X15.  Past its guard, [handleExtractAndPush] first sends the POST
    to [/extract-and-push] for what the form holds, with the generated
    description when the description field is empty.  The body names
    the four fields [source_dir], [repo_name], [description] and
    [private] and no pattern list.  At most one more request follows,
    the reload of the listing. *)
Theorem handleExtractAndPush_request (s : Panel) :
  let w := world (page s) in
  let f := form s in
  let request := form_extraction (clock w) f in
  let req :=
    {| req_url := "http://localhost:8000/github/extract-and-push";
       req_method := POST;
       req_headers := [("Content-Type", "application/json")];
       req_body :=
         Some ("{" ++ quote "source_dir" ++ ":" ++ quote (Form.sourceDir f)
               ++ "," ++ quote "repo_name" ++ ":" ++ quote (Form.extractRepoName f)
               ++ "," ++ quote "description" ++ ":"
               ++ quote (GitHubExtractRequest.description request)
               ++ "," ++ quote "private" ++ ":"
               ++ (if Form.extractPrivate f then "true" else "false") ++ "}") |} in
  trim (Form.extractRepoName f) <> EmptyString ->
  let sent' := sent (world (page (after (handleExtractAndPush s)))) in
  GitHubExtractRequest.description request <> EmptyString
  /\ (sent' = (sent w ++ [req])%list
      \/ sent' = (sent w ++ [req; repositories_request])%list).
Proof.
  cbv zeta. intros Hname.
  split; [unfold form_extraction; cbn; destruct (Form.extractDescription (form s));
          discriminate |].
  rewrite <- extraction_body.
  change {| req_url := "http://localhost:8000/github/extract-and-push";
            req_method := POST;
            req_headers := [("Content-Type", "application/json")];
            req_body := JSON_stringify
                          (GitHubExtractRequest.to_value
                             (form_extraction (clock (world (page s))) (form s))) |}
    with (endpoint githubService
            (ExtractAndPush (form_extraction (clock (world (page s))) (form s)))
            (world (page s))).
  unfold handleExtractAndPush.
  panel_steps.
  rewrite (truthy_nonempty _ Hname). cbn [negb].
  panel_steps.
  assert (Hreq :
    forall d,
      d = GitHubExtractRequest.description
            (form_extraction (clock (world (page s))) (form s)) ->
      {| GitHubExtractRequest.source_dir := Form.sourceDir (form s);
         GitHubExtractRequest.repo_name := Form.extractRepoName (form s);
         GitHubExtractRequest.description := d;
         GitHubExtractRequest.private := Form.extractPrivate (form s);
         GitHubExtractRequest.include_patterns := None;
         GitHubExtractRequest.exclude_patterns := None |}
      = form_extraction (clock (world (page s))) (form s)).
  { intros d ->. reflexivity. }
  destruct (Form.extractDescription (form s)) as [| a rest] eqn:Hd;
    cbn [truthy String.eqb negb fst snd page form world ops];
    (rewrite Hreq by (unfold form_extraction; cbn; now rewrite Hd));
    rewrite extractAndPush_run; cbv zeta;
    handler_cases;
    cbn [fst snd page form world ops sent log_request log_console];
    rewrite ?Hsent, <- ?app_assoc; auto.
Qed.

Lemma handleExtractAndPush_request_witness :
  let s := {| page := {| world := world_answering (Rejected (JsError "TypeError" "Failed to fetch"));
                         ops := initial_ops |};
              form := {| Form.repoName := EmptyString;
                         Form.repoDescription := EmptyString;
                         Form.isPrivate := false;
                         Form.sourceDir := "./generated";
                         Form.extractRepoName := "r1";
                         Form.extractDescription := EmptyString;
                         Form.extractPrivate := false |} |} in
  GitHubExtractRequest.description (form_extraction (clock (world (page s))) (form s))
  <> EmptyString.
Proof.
  cbv zeta.
  apply (handleExtractAndPush_request
           {| page := {| world := world_answering
                                    (Rejected (JsError "TypeError" "Failed to fetch"));
                         ops := initial_ops |};
              form := {| Form.repoName := EmptyString;
                         Form.repoDescription := EmptyString;
                         Form.isPrivate := false;
                         Form.sourceDir := "./generated";
                         Form.extractRepoName := "r1";
                         Form.extractDescription := EmptyString;
                         Form.extractPrivate := false |} |}).
  discriminate.
Defined.

(** X16.  No handler of the panel lets an exception out, whatever the
    backend does and whatever the form holds, and none leaves the
    loading flag up: at the end it is down, or it is what it was (the
    handler stopped at its guard or at a declined confirmation). *)
Theorem panel_handlers_never_raise (s : Panel) (repoName : string) :
  (result (handleCreateRepository s) = Return tt
   /\ (loading (ops (page (after (handleCreateRepository s)))) = false
       \/ loading (ops (page (after (handleCreateRepository s))))
          = loading (ops (page s))))
  /\ (result (handleExtractAndPush s) = Return tt
      /\ (loading (ops (page (after (handleExtractAndPush s)))) = false
          \/ loading (ops (page (after (handleExtractAndPush s))))
             = loading (ops (page s))))
  /\ (result (handleDeleteRepository repoName (page s)) = Return tt
      /\ (loading (ops (after (handleDeleteRepository repoName (page s)))) = false
          \/ loading (ops (after (handleDeleteRepository repoName (page s))))
             = loading (ops (page s)))).
Proof.
  split; [| split].
  - unfold handleCreateRepository. panel_steps.
    destruct (truthy (VStr (trim (Form.repoName (form s))))); cbn [negb];
      [| cbn; auto].
    panel_steps. rewrite createRepository_run. cbv zeta.
    handler_cases; cbn; auto.
  - unfold handleExtractAndPush. panel_steps.
    destruct (truthy (VStr (trim (Form.extractRepoName (form s))))); cbn [negb];
      [| cbn; auto].
    panel_steps.
    destruct (truthy (VStr (Form.extractDescription (form s))));
      cbn [fst snd page form world ops];
      rewrite extractAndPush_run; cbv zeta;
      handler_cases; cbn; auto.
  - unfold handleDeleteRepository. panel_steps. unfold confirm.
    cbn [fst snd page form world ops].
    destruct (confirm_answer (world (page s)) _); cbn [negb];
      [| cbn; auto].
    panel_steps. rewrite deleteRepository_run. cbv zeta.
    handler_cases; cbn; auto.
Qed.

(** X17.  Deleting is a two-step affair in the panel.  The prompt is
    always shown, with the name between double quotes.  If the user
    declines, nothing is sent and the panel's cells stay as they were;
    if the user accepts, the DELETE for that name is the next request. *)
Theorem handleDeleteRepository_asks_first (repoName : string) (p : Page) :
  let p' := after (handleDeleteRepository repoName p) in
  dialogs (world p') = (dialogs (world p) ++ [delete_prompt repoName])%list
  /\ (confirm_answer (world p) (delete_prompt repoName) = false ->
      sent (world p') = sent (world p) /\ ops p' = ops p)
  /\ (confirm_answer (world p) (delete_prompt repoName) = true ->
      exists rest,
        sent (world p')
        = (sent (world p)
             ++ endpoint githubService (DeleteRepository repoName) (world p) :: rest)%list).
Proof.
  cbv zeta.
  unfold handleDeleteRepository. panel_steps. unfold confirm.
  cbn [fst snd page form world ops].
  change ("Are you sure you want to delete the repository " ++ dquote ++ repoName
          ++ dquote ++ "? This action cannot be undone.")
    with (delete_prompt repoName).
  destruct (confirm_answer (world p) (delete_prompt repoName)); cbn [negb].
  - panel_steps. rewrite deleteRepository_run. cbv zeta.
    change (endpoint githubService (DeleteRepository repoName)
              (log_dialog (delete_prompt repoName) (world p)))
      with (endpoint githubService (DeleteRepository repoName) (world p)).
    handler_cases;
      cbn [fst snd page form world ops sent dialogs log_request log_console log_dialog];
      (split; [try assumption; try reflexivity
              | split; [discriminate | intros _; eexists;
                                       rewrite ?Hsent, <- ?app_assoc; reflexivity]]).
  - cbn. split; [reflexivity |]. split; [intros _; now destruct p | discriminate].
Qed.

Lemma handleDeleteRepository_asks_first_witness :
  let p := {| world := {| sent := []; console := []; dialogs := [];
                          backend := fun _ _ => respond 200 (VObj [("success", VBool true)]);
                          confirm_answer := fun _ => false;
                          clock := 0 |};
              ops := initial_ops |} in
  sent (world (after (handleDeleteRepository "r1" p))) = [].
Proof.
  cbv zeta.
  apply (proj1 (proj2 (handleDeleteRepository_asks_first "r1"
           {| world := {| sent := []; console := []; dialogs := [];
                          backend := fun _ _ => respond 200 (VObj [("success", VBool true)]);
                          confirm_answer := fun _ => false;
                          clock := 0 |};
              ops := initial_ops |}))).
  reflexivity.
Defined.

(** X18.  A confirmed deletion the backend accepts (2xx, truthy
    [success]) is followed by a reload: DELETE, then the GET of the
    listing.  The success message names the repository and the loading
    flag is down at the end. *)
Theorem handleDeleteRepository_success (repoName : string) (p : Page) (data : value) :
  let w := world p in
  let req := endpoint githubService (DeleteRepository repoName) w in
  confirm_answer w (delete_prompt repoName) = true ->
  ok_json (answer w req) data ->
  truthy_at data "success" ->
  let p' := after (handleDeleteRepository repoName p) in
  result (handleDeleteRepository repoName p) = Return tt
  /\ sent (world p') = (sent w ++ [req; repositories_request])%list
  /\ success (ops p')
     = VStr ("Repository " ++ dquote ++ repoName ++ dquote ++ " deleted successfully!")
  /\ loading (ops p') = false.
Proof.
  cbv zeta. intros Hconfirm Hok (v & Hget & Hv).
  unfold handleDeleteRepository. panel_steps. unfold confirm.
  cbn [fst snd page form world ops].
  change ("Are you sure you want to delete the repository " ++ dquote ++ repoName
          ++ dquote ++ "? This action cannot be undone.")
    with (delete_prompt repoName).
  rewrite Hconfirm. cbn [negb].
  panel_steps. rewrite deleteRepository_run. cbv zeta.
  change (endpoint githubService (DeleteRepository repoName)
            (log_dialog (delete_prompt repoName) (world p)))
    with (endpoint githubService (DeleteRepository repoName) (world p)).
  change (answer (log_dialog (delete_prompt repoName) (world p))) with (answer (world p)).
  rewrite (settle_success _ _ _ Hok).
  cbn [fst snd page form world ops]. rewrite Hget, Hv.
  cbn [fst snd page form world ops].
  with_loader.
  cbn [fst snd page form world ops sent log_dialog] in *.
  repeat split; try assumption.
  rewrite Hsent. now rewrite <- app_assoc.
Qed.

Lemma handleDeleteRepository_success_witness :
  let p := {| world := world_answering (respond 200 (VObj [("success", VBool true)]));
              ops := initial_ops |} in
  map req_method (sent (world (after (handleDeleteRepository "r1" p)))) = [DELETE; GET].
Proof.
  cbv zeta.
  rewrite (proj1 (proj2 (handleDeleteRepository_success "r1"
             {| world := world_answering (respond 200 (VObj [("success", VBool true)]));
                ops := initial_ops |}
             (VObj [("success", VBool true)])
             eq_refl
             (ok_json_2xx {| resp_status := 200;
                             resp_body := BodyJson (VObj [("success", VBool true)]) |}
                _ eq_refl eq_refl)
             (ex_intro _ (VBool true) (conj eq_refl eq_refl))))).
  reflexivity.
Defined.

(** X19.  When a confirmed deletion raises, the panel shows the
    message of the exception, does not reload, and keeps the list: the
    repository stays listed. *)
Theorem handleDeleteRepository_shows_failure
    (repoName : string) (p : Page) (name message : string) :
  let w := world p in
  confirm_answer w (delete_prompt repoName) = true ->
  result (deleteRepository githubService repoName w) = Throw (JsError name message) ->
  let p' := after (handleDeleteRepository repoName p) in
  error (ops p') = VStr message
  /\ success (ops p') = VNull
  /\ repositories (ops p') = repositories (ops p)
  /\ sent (world p')
     = (sent w ++ [endpoint githubService (DeleteRepository repoName) w])%list
  /\ loading (ops p') = false.
Proof.
  cbv zeta. intros Hconfirm. unfold result at 1. rewrite deleteRepository_run. cbv zeta.
  intros Hthrow.
  unfold handleDeleteRepository. panel_steps. unfold confirm.
  cbn [fst snd page form world ops].
  change ("Are you sure you want to delete the repository " ++ dquote ++ repoName
          ++ dquote ++ "? This action cannot be undone.")
    with (delete_prompt repoName).
  rewrite Hconfirm. cbn [negb].
  panel_steps. rewrite deleteRepository_run. cbv zeta.
  change (endpoint githubService (DeleteRepository repoName)
            (log_dialog (delete_prompt repoName) (world p)))
    with (endpoint githubService (DeleteRepository repoName) (world p)).
  change (answer (log_dialog (delete_prompt repoName) (world p))) with (answer (world p)).
  destruct (settle _ _) as [data | e]; cbn [fst] in Hthrow; [discriminate |].
  injection Hthrow as ->.
  cbn. repeat split.
Qed.

Lemma handleDeleteRepository_shows_failure_witness :
  let p := {| world := world_answering (respond 404 (VObj [("detail", VStr "Not Found")]));
              ops := initial_ops |} in
  error (ops (after (handleDeleteRepository "r1" p))) = VStr "Not Found".
Proof.
  cbv zeta.
  apply (handleDeleteRepository_shows_failure "r1"
           {| world := world_answering (respond 404 (VObj [("detail", VStr "Not Found")]));
              ops := initial_ops |}
           "Error" "Not Found");
    reflexivity.
Defined.

(** X30.  A push the backend accepts (2xx, truthy [success]) is
    followed by a reload of the listing.  The success message names
    the repository, the extract form is cleared except for the source
    directory, the create form is not touched, and the loading flag is
    down at the end. *)
Theorem handleExtractAndPush_success (s : Panel) (data : value) :
  let w := world (page s) in
  let req :=
    endpoint githubService (ExtractAndPush (form_extraction (clock w) (form s))) w in
  trim (Form.extractRepoName (form s)) <> EmptyString ->
  ok_json (answer w req) data ->
  truthy_at data "success" ->
  let s' := after (handleExtractAndPush s) in
  result (handleExtractAndPush s) = Return tt
  /\ sent (world (page s')) = (sent w ++ [req; repositories_request])%list
  /\ success (ops (page s'))
     = VStr ("Code extracted and pushed to " ++ dquote ++ Form.extractRepoName (form s)
             ++ dquote ++ " successfully!")
  /\ form s' = extract_form_cleared (form s)
  /\ loading (ops (page s')) = false.
Proof.
  cbv zeta. intros Hname Hok (v & Hget & Hv).
  unfold handleExtractAndPush.
  panel_steps.
  rewrite (truthy_nonempty _ Hname). cbn [negb].
  panel_steps.
  assert (Hreq :
    forall d,
      d = GitHubExtractRequest.description
            (form_extraction (clock (world (page s))) (form s)) ->
      {| GitHubExtractRequest.source_dir := Form.sourceDir (form s);
         GitHubExtractRequest.repo_name := Form.extractRepoName (form s);
         GitHubExtractRequest.description := d;
         GitHubExtractRequest.private := Form.extractPrivate (form s);
         GitHubExtractRequest.include_patterns := None;
         GitHubExtractRequest.exclude_patterns := None |}
      = form_extraction (clock (world (page s))) (form s)).
  { intros d ->. reflexivity. }
  destruct (Form.extractDescription (form s)) as [| a rest] eqn:Hd;
    cbn [truthy String.eqb negb fst snd page form world ops];
    (rewrite Hreq by (unfold form_extraction; cbn; now rewrite Hd));
    rewrite extractAndPush_run; cbv zeta;
    rewrite (settle_success _ _ _ Hok);
    cbn [fst snd page form world ops]; rewrite Hget, Hv;
    cbn [fst snd page form world ops];
    with_loader;
    cbn [fst snd page form world ops];
    (repeat split; try assumption);
    rewrite Hsent; now rewrite <- app_assoc.
Qed.

Lemma handleExtractAndPush_success_witness :
  let s := {| page := {| world := world_answering (respond 200 (VObj [("success", VBool true)]));
                         ops := initial_ops |};
              form := {| Form.repoName := "kept";
                         Form.repoDescription := EmptyString;
                         Form.isPrivate := false;
                         Form.sourceDir := "./out";
                         Form.extractRepoName := "r1";
                         Form.extractDescription := EmptyString;
                         Form.extractPrivate := true |} |} in
  map req_method (sent (world (page (after (handleExtractAndPush s))))) = [POST; GET].
Proof.
  cbv zeta.
  rewrite (proj1 (proj2 (handleExtractAndPush_success
             {| page := {| world := world_answering
                                      (respond 200 (VObj [("success", VBool true)]));
                           ops := initial_ops |};
                form := {| Form.repoName := "kept";
                           Form.repoDescription := EmptyString;
                           Form.isPrivate := false;
                           Form.sourceDir := "./out";
                           Form.extractRepoName := "r1";
                           Form.extractDescription := EmptyString;
                           Form.extractPrivate := true |} |}
             (VObj [("success", VBool true)])
             ltac:(discriminate)
             (ok_json_2xx {| resp_status := 200;
                             resp_body := BodyJson (VObj [("success", VBool true)]) |}
                _ eq_refl eq_refl)
             (ex_intro _ (VBool true) (conj eq_refl eq_refl))))).
  reflexivity.
Defined.

(** X20.  A status that reports a failure never triggers a listing:
    when [getStatus] could not get a 2xx JSON answer, the value it
    returns makes the panel's mount effect do nothing at all. *)
Theorem failed_status_loads_nothing (w : World) (status : value) (p : Page) :
  (forall data, ~ ok_json (answer w (status_request githubService)) data) ->
  result (getStatus githubService w) = Return status ->
  load_when_configured status p = (Return tt, p).
Proof.
  intros Hno. unfold result. rewrite getStatus_run. cbv zeta.
  change (make_request (baseUrl githubService ++ "/status") None)
    with (status_request githubService).
  destruct (settle_cases "Failed to get GitHub status"
              (answer w (status_request githubService)))
    as [(data & Hok & _) | (e & He & _)]; [destruct (Hno data Hok) |].
  rewrite He. cbn [fst]. intros [= <-].
  reflexivity.
Qed.

Lemma failed_status_loads_nothing_witness :
  let w := world_answering (Rejected (JsError "TypeError" "Failed to fetch")) in
  load_when_configured (not_configured "Failed to fetch")
    {| world := w; ops := initial_ops |}
  = (Return tt, {| world := w; ops := initial_ops |}).
Proof.
  cbv zeta.
  apply (failed_status_loads_nothing
           (world_answering (Rejected (JsError "TypeError" "Failed to fetch")))).
  - intros data H. inversion H.
  - reflexivity.
Defined.

(* ===================================================================== *)
(** ** The page and the configuration form *)
(* ===================================================================== *)

(** Open a handler of a mounted component up to its service call. *)
Ltac mounted_steps :=
  unfold ConfigForm.setToken, ConfigForm.setUsername, ConfigForm.setStatus,
    ConfigForm.setLoading, ConfigForm.setError, ConfigForm.setSuccess,
    optional_call, try_finally, try_catch, bind, in_world, in_parent, update,
    rendered, step, ret, console_error, result, after;
  cbv beta iota;
  cbn [fst snd m_world m_state m_parent].

(** X21.  The page's status check cannot fail: it never raises, it
    sends the one status request, and what it stores is exactly what
    [getStatus] returned, so a failure shows up as the message
    [getStatus] reports.  The tab is not changed. *)
Theorem checkGitHubStatus_stores_status (s : Mounted GitHubPage.t unit) :
  let s' := after (GitHubPage.checkGitHubStatus s) in
  result (GitHubPage.checkGitHubStatus s) = Return tt
  /\ result (getStatus githubService (m_world s))
     = Return (GitHubPage.githubStatus (m_state s'))
  /\ GitHubPage.activeTab (m_state s') = GitHubPage.activeTab (m_state s)
  /\ m_world s' = after (getStatus githubService (m_world s)).
Proof.
  cbv zeta. unfold GitHubPage.checkGitHubStatus. mounted_steps.
  rewrite getStatus_run. cbv zeta.
  destruct (settle _ _); cbn; repeat split.
Qed.

Lemma handleConfigChange_facts (status : value) (s : GitHubPage.t) :
  let s' := after (GitHubPage.handleConfigChange status s) in
  GitHubPage.githubStatus s' = status
  /\ (GitHubPage.activeTab s' = TabOperations <->
      GitHubPage.activeTab s = TabOperations \/ truthy_at status "configured").
Proof.
  cbv zeta.
  unfold GitHubPage.handleConfigChange, GitHubPage.setGitHubStatus,
    GitHubPage.setActiveTab, bind, step, when, ret, after, truthy_at.
  cbn [fst snd].
  destruct (get status "configured") as [v | e] eqn:Hget; cbn [fst snd].
  - destruct (truthy v) eqn:Hv; cbn; split; try reflexivity.
    + split; [intros _; right; exists v; auto | reflexivity].
    + split; [auto |].
      intros [H | (v' & Hv' & Ht)]; [exact H | congruence].
  - cbn. split; [reflexivity |].
    split; [auto |].
    intros [H | (v' & Hv' & _)]; [exact H | discriminate].
Qed.

(** X22.  [handleConfigChange] always stores the status it is given,
    and it only ever moves to the operations tab: afterwards the
    operations tab is active exactly when it was active before or the
    status has a truthy [configured]. *)
Theorem handleConfigChange_tab (status : value) (s : GitHubPage.t) :
  let s' := after (GitHubPage.handleConfigChange status s) in
  GitHubPage.githubStatus s' = status
  /\ (GitHubPage.activeTab s' = TabOperations <->
      GitHubPage.activeTab s = TabOperations \/ truthy_at status "configured").
Proof.
  cbv zeta.
  unfold GitHubPage.handleConfigChange, GitHubPage.setGitHubStatus,
    GitHubPage.setActiveTab, bind, step, when, ret, after, truthy_at.
  cbn [fst snd].
  destruct (get status "configured") as [v | e] eqn:Hget; cbn [fst snd].
  - destruct (truthy v) eqn:Hv; cbn; split; try reflexivity.
    + split; [intros _; right; exists v; auto | reflexivity].
    + split; [auto |].
      intros [H | (v' & Hv' & Ht)]; [exact H | congruence].
  - cbn. split; [reflexivity |].
    split; [auto |].
    intros [H | (v' & Hv' & _)]; [exact H | discriminate].
Qed.

Lemma configure_run config w :
  configure githubService config w =
  let req := endpoint githubService (Configure config) w in
  match settle "Failed to configure GitHub" (answer w req) with
  | Return data => (Return data, log_request req w)
  | Throw e => (Throw e, log_console "GitHub configuration error:" e (log_request req w))
  end.
Proof. exact (run_settles githubService (Configure config) w). Qed.

Section ConfigComponent.

Context {P : Type}.
Variable onConfigChange : option (value -> Eff P unit).

Lemma checkStatus_facts (s : Mounted ConfigForm.t P) :
  let s' := after (ConfigForm.checkStatus onConfigChange s) in
  exists status,
    result (getStatus githubService (m_world s)) = Return status
    /\ result (ConfigForm.checkStatus onConfigChange s) = Return tt
    /\ ConfigForm.status (m_state s') = status
    /\ ConfigForm.loading (m_state s') = false
    /\ m_parent s' = snd (notified onConfigChange status (m_parent s))
    /\ sent (m_world s') = (sent (m_world s) ++ [status_request githubService])%list
    /\ match fst (notified onConfigChange status (m_parent s)) with
       | Return _ => ConfigForm.error (m_state s') = ConfigForm.error (m_state s)
       | Throw _ =>
           ConfigForm.error (m_state s') = VStr "Failed to check GitHub status"
       end.
Proof.
  cbv zeta.
  destruct (getStatus_returns githubService (m_world s)) as [status Hstatus].
  exists status. split; [exact Hstatus |].
  pose proof (getStatus_effects githubService (m_world s)) as (Hsent & _).
  unfold result, after in Hstatus, Hsent.
  unfold ConfigForm.checkStatus, notified. mounted_steps.
  destruct (getStatus githubService (m_world s)) as [res w'].
  cbn [fst snd] in Hstatus, Hsent. subst res.
  cbn [fst snd m_world m_state m_parent].
  destruct onConfigChange as [f |]; cbn [fst snd m_world m_state m_parent].
  - destruct (f status (m_parent s)) as [[[] | e] parent'];
      cbn; repeat split; auto.
  - cbn. repeat split; auto.
Qed.

(** X23.  The form's status check never raises, whatever the callback
    does.  It sends the one status request, stores what [getStatus]
    returned, gives exactly that value to the callback and lowers the
    loading flag.  Its own error text appears only if the callback
    raised: [getStatus] cannot be the cause. *)
Theorem checkStatus_reports (s : Mounted ConfigForm.t P) :
  let s' := after (ConfigForm.checkStatus onConfigChange s) in
  exists status,
    result (getStatus githubService (m_world s)) = Return status
    /\ result (ConfigForm.checkStatus onConfigChange s) = Return tt
    /\ ConfigForm.status (m_state s') = status
    /\ ConfigForm.loading (m_state s') = false
    /\ m_parent s' = snd (notified onConfigChange status (m_parent s))
    /\ sent (m_world s') = (sent (m_world s) ++ [status_request githubService])%list
    /\ match fst (notified onConfigChange status (m_parent s)) with
       | Return _ => ConfigForm.error (m_state s') = ConfigForm.error (m_state s)
       | Throw _ =>
           ConfigForm.error (m_state s') = VStr "Failed to check GitHub status"
       end.
Proof.
  cbv zeta.
  destruct (getStatus_returns githubService (m_world s)) as [status Hstatus].
  exists status. split; [exact Hstatus |].
  pose proof (getStatus_effects githubService (m_world s)) as (Hsent & _).
  unfold result, after in Hstatus, Hsent.
  unfold ConfigForm.checkStatus, notified. mounted_steps.
  destruct (getStatus githubService (m_world s)) as [res w'].
  cbn [fst snd] in Hstatus, Hsent. subst res.
  cbn [fst snd m_world m_state m_parent].
  destruct onConfigChange as [f |]; cbn [fst snd m_world m_state m_parent].
  - destruct (f status (m_parent s)) as [[[] | e] parent'];
      cbn; repeat split; auto.
  - cbn. repeat split; auto.
Qed.

(** X25.  The configuration form is guarded: when the token or the
    user name is empty or only white space, [handleConfigure] sends
    nothing, tells the parent nothing and shows
    [Please provide both token and username]. *)
Theorem handleConfigure_blank (s : Mounted ConfigForm.t P) :
  trim (ConfigForm.token (m_state s)) = EmptyString
  \/ trim (ConfigForm.username (m_state s)) = EmptyString ->
  let s' := after (ConfigForm.handleConfigure onConfigChange s) in
  result (ConfigForm.handleConfigure onConfigChange s) = Return tt
  /\ m_world s' = m_world s
  /\ m_parent s' = m_parent s
  /\ ConfigForm.error (m_state s') = VStr "Please provide both token and username"
  /\ ConfigForm.token (m_state s') = ConfigForm.token (m_state s)
  /\ ConfigForm.username (m_state s') = ConfigForm.username (m_state s)
  /\ ConfigForm.status (m_state s') = ConfigForm.status (m_state s)
  /\ ConfigForm.loading (m_state s') = ConfigForm.loading (m_state s).
Proof.
  intros H. cbv zeta.
  unfold ConfigForm.handleConfigure. mounted_steps.
  assert (Hguard :
    negb (truthy (VStr (trim (ConfigForm.token (m_state s)))))
    || negb (truthy (VStr (trim (ConfigForm.username (m_state s))))) = true).
  { destruct H as [-> | ->]; cbn; [reflexivity | apply orb_true_r]. }
  rewrite Hguard. cbn. repeat split.
Qed.

(** X28.  Disconnecting is a [configure] call with an empty token and
    an empty user name.  Whenever that call returns, that is on every
    2xx answer with a JSON body, also one that says [success: false],
    the form shows the integration as disconnected, tells the parent
    so and reports success. *)
Theorem handleDisconnect_reports_on_return
    (s : Mounted ConfigForm.t P) (data : value) :
  let w := m_world s in
  let req :=
    {| req_url := "http://localhost:8000/github/configure";
       req_method := POST;
       req_headers := [("Content-Type", "application/json")];
       req_body :=
         Some ("{" ++ quote "token" ++ ":" ++ quote EmptyString
               ++ "," ++ quote "username" ++ ":" ++ quote EmptyString ++ "}") |} in
  ok_json (answer w req) data ->
  fst (notified onConfigChange ConfigForm.disconnected (m_parent s)) = Return tt ->
  let s' := after (ConfigForm.handleDisconnect onConfigChange s) in
  result (ConfigForm.handleDisconnect onConfigChange s) = Return tt
  /\ sent (m_world s') = (sent w ++ [req])%list
  /\ ConfigForm.status (m_state s') = ConfigForm.disconnected
  /\ ConfigForm.success (m_state s') = VStr "GitHub disconnected successfully"
  /\ ConfigForm.error (m_state s') = ConfigForm.error (m_state s)
  /\ ConfigForm.loading (m_state s') = false
  /\ m_parent s' = snd (notified onConfigChange ConfigForm.disconnected (m_parent s)).
Proof.
  cbv zeta. intros Hok Hcb.
  unfold ConfigForm.handleDisconnect, notified in *. mounted_steps.
  rewrite configure_run. cbv zeta.
  change (endpoint githubService
            (Configure {| GitHubConfig.token := EmptyString;
                          GitHubConfig.username := EmptyString |}) (m_world s))
    with {| req_url := "http://localhost:8000/github/configure";
            req_method := POST;
            req_headers := [("Content-Type", "application/json")];
            req_body :=
              Some ("{" ++ quote "token" ++ ":" ++ quote EmptyString
                    ++ "," ++ quote "username" ++ ":" ++ quote EmptyString ++ "}") |}.
  rewrite (settle_success _ _ _ Hok).
  cbn [fst snd m_world m_state m_parent].
  destruct onConfigChange as [f |]; cbn [fst snd m_world m_state m_parent].
  - destruct (f ConfigForm.disconnected (m_parent s)) as [[[] | e] parent'];
      cbn [fst] in Hcb; [| discriminate].
    cbn. repeat split.
  - cbn. repeat split.
Qed.

(** X29.  When the disconnecting call raises, nothing is marked as
    disconnected: the status shown stays, the parent is not told, and
    the error is the fixed text [Failed to disconnect GitHub]. *)
Theorem handleDisconnect_failure (s : Mounted ConfigForm.t P) (e : thrown) :
  result (configure githubService
            {| GitHubConfig.token := EmptyString; GitHubConfig.username := EmptyString |}
            (m_world s)) = Throw e ->
  let s' := after (ConfigForm.handleDisconnect onConfigChange s) in
  result (ConfigForm.handleDisconnect onConfigChange s) = Return tt
  /\ ConfigForm.status (m_state s') = ConfigForm.status (m_state s)
  /\ ConfigForm.error (m_state s') = VStr "Failed to disconnect GitHub"
  /\ ConfigForm.success (m_state s') = ConfigForm.success (m_state s)
  /\ ConfigForm.loading (m_state s') = false
  /\ m_parent s' = m_parent s.
Proof.
  cbv zeta. unfold result at 1. rewrite configure_run. cbv zeta. intros Hthrow.
  unfold ConfigForm.handleDisconnect. mounted_steps.
  rewrite configure_run. cbv zeta.
  destruct (settle _ _) as [data | e']; cbn [fst] in Hthrow; [discriminate |].
  cbn. repeat split.
Qed.

Lemma checkStatus_keeps (s : Mounted ConfigForm.t P) :
  let s' := after (ConfigForm.checkStatus onConfigChange s) in
  ConfigForm.token (m_state s') = ConfigForm.token (m_state s)
  /\ ConfigForm.username (m_state s') = ConfigForm.username (m_state s)
  /\ ConfigForm.success (m_state s') = ConfigForm.success (m_state s).
Proof.
  cbv zeta. unfold ConfigForm.checkStatus. mounted_steps.
  destruct (getStatus githubService (m_world s)) as [[status | e] w'];
    cbn [fst snd m_world m_state m_parent]; [| cbn; repeat split].
  destruct onConfigChange as [f |]; cbn [fst snd m_world m_state m_parent].
  - destruct (f status (m_parent s)) as [[[] | e] parent']; cbn; repeat split.
  - cbn. repeat split.
Qed.

(** X26.  Credentials the backend accepts (2xx, truthy [success]) are
    followed by a status check: the POST with the credentials as
    typed, untrimmed, then the GET of the status.  Token and user name
    are wiped from the form, the success message is shown, and the
    status shown is the one that check returned. *)
Theorem handleConfigure_success (s : Mounted ConfigForm.t P) (data : value) :
  let w := m_world s in
  let config := {| GitHubConfig.token := ConfigForm.token (m_state s);
                   GitHubConfig.username := ConfigForm.username (m_state s) |} in
  let req := endpoint githubService (Configure config) w in
  trim (ConfigForm.token (m_state s)) <> EmptyString ->
  trim (ConfigForm.username (m_state s)) <> EmptyString ->
  ok_json (answer w req) data ->
  truthy_at data "success" ->
  let s' := after (ConfigForm.handleConfigure onConfigChange s) in
  result (ConfigForm.handleConfigure onConfigChange s) = Return tt
  /\ sent (m_world s') = (sent w ++ [req; status_request githubService])%list
  /\ ConfigForm.token (m_state s') = EmptyString
  /\ ConfigForm.username (m_state s') = EmptyString
  /\ ConfigForm.success (m_state s') = VStr "GitHub configured successfully!"
  /\ result (getStatus githubService (log_request req w))
     = Return (ConfigForm.status (m_state s'))
  /\ ConfigForm.loading (m_state s') = false.
Proof.
  cbv zeta. intros Htoken Huser Hok (v & Hget & Hv).
  unfold ConfigForm.handleConfigure. mounted_steps.
  rewrite (truthy_nonempty _ Htoken), (truthy_nonempty _ Huser). cbn [negb orb].
  mounted_steps.
  rewrite configure_run. cbv zeta.
  rewrite (settle_success _ _ _ Hok).
  cbn [fst snd m_world m_state m_parent]. rewrite Hget, Hv.
  cbn [fst snd m_world m_state m_parent].
  match goal with
  | |- context [ConfigForm.checkStatus onConfigChange ?st] =>
      pose proof (checkStatus_facts st) as (status & H1 & H2 & H3 & H4 & _ & H6 & _);
      pose proof (checkStatus_keeps st) as (K1 & K2 & K3);
      unfold result, after in H1, H2, H3, H4, H6, K1, K2, K3;
      destruct (ConfigForm.checkStatus onConfigChange st) as [res st']
  end.
  cbn [fst snd m_world m_state m_parent sent log_request
       ConfigForm.token ConfigForm.username ConfigForm.success] in *.
  subst res. unfold result.
  cbn [fst snd m_world m_state m_parent
       ConfigForm.token ConfigForm.username ConfigForm.success
       ConfigForm.status ConfigForm.loading].
  repeat split; try assumption.
  - rewrite H6. now rewrite <- app_assoc.
  - now rewrite H1, H3.
Qed.

(** X27.  When [configure] raises, the form shows the message of the
    exception and keeps the token and the user name as typed; no
    status check follows and the parent is not told anything. *)
Theorem handleConfigure_shows_failure
    (s : Mounted ConfigForm.t P) (name message : string) :
  let w := m_world s in
  let config := {| GitHubConfig.token := ConfigForm.token (m_state s);
                   GitHubConfig.username := ConfigForm.username (m_state s) |} in
  trim (ConfigForm.token (m_state s)) <> EmptyString ->
  trim (ConfigForm.username (m_state s)) <> EmptyString ->
  result (configure githubService config w) = Throw (JsError name message) ->
  let s' := after (ConfigForm.handleConfigure onConfigChange s) in
  result (ConfigForm.handleConfigure onConfigChange s) = Return tt
  /\ ConfigForm.error (m_state s') = VStr message
  /\ ConfigForm.token (m_state s') = ConfigForm.token (m_state s)
  /\ ConfigForm.username (m_state s') = ConfigForm.username (m_state s)
  /\ ConfigForm.status (m_state s') = ConfigForm.status (m_state s)
  /\ sent (m_world s')
     = (sent w ++ [endpoint githubService (Configure config) w])%list
  /\ m_parent s' = m_parent s
  /\ ConfigForm.loading (m_state s') = false.
Proof.
  cbv zeta. intros Htoken Huser.
  unfold result at 1. rewrite configure_run. cbv zeta. intros Hthrow.
  unfold ConfigForm.handleConfigure. mounted_steps.
  rewrite (truthy_nonempty _ Htoken), (truthy_nonempty _ Huser). cbn [negb orb].
  mounted_steps.
  rewrite configure_run. cbv zeta.
  destruct (settle _ _) as [data | e]; cbn [fst] in Hthrow; [discriminate |].
  injection Hthrow as ->.
  cbn. repeat split.
Qed.

End ConfigComponent.

(** X24.  The form mounted in the page, with [handleConfigChange] as
    its callback: after a status check the page holds the status
    [getStatus] returned, and the operations tab is active exactly
    when it was before or that status has a truthy [configured].  The
    form shows its own error only when the status cannot be read at
    all (a 2xx answer whose body is [null]). *)
Theorem status_check_opens_operations (s : Mounted ConfigForm.t GitHubPage.t) :
  let s' := after (ConfigForm.checkStatus (Some GitHubPage.handleConfigChange) s) in
  exists status,
    result (getStatus githubService (m_world s)) = Return status
    /\ GitHubPage.githubStatus (m_parent s') = status
    /\ (GitHubPage.activeTab (m_parent s') = TabOperations <->
        GitHubPage.activeTab (m_parent s) = TabOperations
        \/ truthy_at status "configured")
    /\ match get status "configured" with
       | Return _ => ConfigForm.error (m_state s') = ConfigForm.error (m_state s)
       | Throw _ => ConfigForm.error (m_state s') = VStr "Failed to check GitHub status"
       end.
Proof.
  cbv zeta.
  destruct (checkStatus_facts (Some GitHubPage.handleConfigChange) s)
    as (status & H1 & _ & _ & _ & Hparent & _ & Herror).
  exists status. split; [exact H1 |].
  rewrite Hparent. unfold notified in *.
  destruct (handleConfigChange_facts status (m_parent s)) as (Hs & Htab).
  unfold after in Hs, Htab.
  split; [exact Hs |]. split; [exact Htab |].
  revert Herror.
  unfold GitHubPage.handleConfigChange, GitHubPage.setGitHubStatus,
    GitHubPage.setActiveTab, bind, step, when, ret.
  cbn [fst snd].
  destruct (get status "configured") as [v | e]; cbn [fst snd]; [| auto].
  destruct (truthy v); auto.
Qed.

Example status_check_null_status :
  let s := {| m_world := world_answering (respond 200 VNull);
              m_state := ConfigForm.initial;
              m_parent := GitHubPage.initial |} in
  let s' := after (ConfigForm.checkStatus (Some GitHubPage.handleConfigChange) s) in
  GitHubPage.githubStatus (m_parent s') = VNull
  /\ ConfigForm.error (m_state s') = VStr "Failed to check GitHub status".
Proof. split; reflexivity. Qed.

Lemma handleConfigure_blank_witness :
  let s := {| m_world := world_answering (respond 200 VNull);
              m_state := {| ConfigForm.token := "ghp_x";
                            ConfigForm.username := "  ";
                            ConfigForm.status := VNull;
                            ConfigForm.loading := false;
                            ConfigForm.error := VNull;
                            ConfigForm.success := VNull |};
              m_parent := GitHubPage.initial |} in
  sent (m_world (after (ConfigForm.handleConfigure
                          (Some GitHubPage.handleConfigChange) s))) = [].
Proof.
  cbv zeta.
  rewrite (proj1 (proj2 (handleConfigure_blank (Some GitHubPage.handleConfigChange)
             {| m_world := world_answering (respond 200 VNull);
                m_state := {| ConfigForm.token := "ghp_x";
                              ConfigForm.username := "  ";
                              ConfigForm.status := VNull;
                              ConfigForm.loading := false;
                              ConfigForm.error := VNull;
                              ConfigForm.success := VNull |};
                m_parent := GitHubPage.initial |}
             (or_intror eq_refl)))).
  reflexivity.
Defined.

Lemma handleConfigure_success_witness :
  let s := {| m_world := world_answering
                           (respond 200 (VObj [("success", VBool true);
                                               ("configured", VBool true)]));
              m_state := {| ConfigForm.token := "ghp_x";
                            ConfigForm.username := "u1";
                            ConfigForm.status := VNull;
                            ConfigForm.loading := false;
                            ConfigForm.error := VNull;
                            ConfigForm.success := VNull |};
              m_parent := GitHubPage.initial |} in
  map req_method
    (sent (m_world (after (ConfigForm.handleConfigure
                             (Some GitHubPage.handleConfigChange) s))))
  = [POST; GET].
Proof.
  cbv zeta.
  rewrite (proj1 (proj2 (handleConfigure_success (Some GitHubPage.handleConfigChange)
             {| m_world := world_answering
                             (respond 200 (VObj [("success", VBool true);
                                                 ("configured", VBool true)]));
                m_state := {| ConfigForm.token := "ghp_x";
                              ConfigForm.username := "u1";
                              ConfigForm.status := VNull;
                              ConfigForm.loading := false;
                              ConfigForm.error := VNull;
                              ConfigForm.success := VNull |};
                m_parent := GitHubPage.initial |}
             (VObj [("success", VBool true); ("configured", VBool true)])
             ltac:(discriminate) ltac:(discriminate)
             (ok_json_2xx {| resp_status := 200;
                             resp_body := BodyJson (VObj [("success", VBool true);
                                                          ("configured", VBool true)]) |}
                _ eq_refl eq_refl)
             (ex_intro _ (VBool true) (conj eq_refl eq_refl))))).
  reflexivity.
Defined.

Lemma handleConfigure_shows_failure_witness :
  let s := {| m_world := world_answering
                           (respond 401 (VObj [("detail", VStr "Bad credentials")]));
              m_state := {| ConfigForm.token := "ghp_x";
                            ConfigForm.username := "u1";
                            ConfigForm.status := VNull;
                            ConfigForm.loading := false;
                            ConfigForm.error := VNull;
                            ConfigForm.success := VNull |};
              m_parent := GitHubPage.initial |} in
  ConfigForm.error (m_state (after (ConfigForm.handleConfigure
                                      (Some GitHubPage.handleConfigChange) s)))
  = VStr "Bad credentials".
Proof.
  cbv zeta.
  apply (handleConfigure_shows_failure (Some GitHubPage.handleConfigChange)
           {| m_world := world_answering
                           (respond 401 (VObj [("detail", VStr "Bad credentials")]));
              m_state := {| ConfigForm.token := "ghp_x";
                            ConfigForm.username := "u1";
                            ConfigForm.status := VNull;
                            ConfigForm.loading := false;
                            ConfigForm.error := VNull;
                            ConfigForm.success := VNull |};
              m_parent := GitHubPage.initial |}
           "Error" "Bad credentials");
    (discriminate || reflexivity).
Defined.

(** The backend refuses, the form still says disconnected. *)
Lemma handleDisconnect_reports_on_return_witness :
  let s := {| m_world := world_answering
                           (respond 200 (VObj [("success", VBool false);
                                               ("error", VStr "Invalid token")]));
              m_state := ConfigForm.initial;
              m_parent := GitHubPage.initial |} in
  ConfigForm.status
    (m_state (after (ConfigForm.handleDisconnect (Some GitHubPage.handleConfigChange) s)))
  = ConfigForm.disconnected.
Proof.
  cbv zeta.
  apply (handleDisconnect_reports_on_return (Some GitHubPage.handleConfigChange)
           {| m_world := world_answering
                           (respond 200 (VObj [("success", VBool false);
                                               ("error", VStr "Invalid token")]));
              m_state := ConfigForm.initial;
              m_parent := GitHubPage.initial |}
           (VObj [("success", VBool false); ("error", VStr "Invalid token")])).
  - apply (ok_json_2xx {| resp_status := 200; resp_body := BodyJson _ |}); reflexivity.
  - reflexivity.
Defined.

Lemma handleDisconnect_failure_witness :
  let s := {| m_world := world_answering (Rejected (JsError "TypeError" "Failed to fetch"));
              m_state := ConfigForm.initial;
              m_parent := GitHubPage.initial |} in
  ConfigForm.error
    (m_state (after (ConfigForm.handleDisconnect (Some GitHubPage.handleConfigChange) s)))
  = VStr "Failed to disconnect GitHub".
Proof.
  cbv zeta.
  apply (handleDisconnect_failure (Some GitHubPage.handleConfigChange)
           {| m_world := world_answering (Rejected (JsError "TypeError" "Failed to fetch"));
              m_state := ConfigForm.initial;
              m_parent := GitHubPage.initial |}
           (JsError "TypeError" "Failed to fetch")).
  reflexivity.
Defined.
